(** * whatsapp-message-filter: a shallow embedding of [index.js]

    The service receives chat webhook events, drops noise (non-message
    events, outgoing messages, system notices), asks a language model whether
    the remaining text is an action item and appends positive results to a
    spreadsheet endpoint.

    The embedding follows [index.js] function by function.  JavaScript strings
    are sequences of UTF-16 code units, JSON values are an inductive type,
    exceptions are an error monad, and the two outbound HTTP calls are taken
    from an explicit [World] and recorded in a trace. *)

From Stdlib Require Import ZArith NArith List String Ascii Bool Lia.
Import ListNotations.

Open Scope string_scope.
Open Scope list_scope.

(** ** JavaScript strings *)

Module JsString.

(** A string is the list of its UTF-16 code units. *)
Definition jsstr := list N.

(** An ASCII literal of the source, as code units. *)
Definition lit (s : string) : jsstr :=
  map N_of_ascii (list_ascii_of_string s).

(** A JSON text of the examples, written with ' for the double quote. *)
Definition json_lit (s : string) : jsstr :=
  map (fun c => if N.eqb c 39 then 34%N else c) (lit s).

Fixpoint eqb (a b : jsstr) : bool :=
  match a, b with
  | [], [] => true
  | x :: a', y :: b' => N.eqb x y && eqb a' b'
  | _, _ => false
  end.

(** ECMAScript LineTerminator: LF, CR, LS, PS. *)
Definition is_line_terminator (c : N) : bool :=
  (c =? 10)%N || (c =? 13)%N || (c =? 8232)%N || (c =? 8233)%N.

(** ECMAScript WhiteSpace and LineTerminator, the set that both
    [String.prototype.trim] and the class escape [\s] use: TAB, VT, FF, SP,
    NBSP, ZWNBSP, the category Zs, and the line terminators. *)
Definition is_space (c : N) : bool :=
  (c =? 9)%N || (c =? 11)%N || (c =? 12)%N || (c =? 32)%N || (c =? 160)%N
  || (c =? 5760)%N || ((8192 <=? c)%N && (c <=? 8202)%N)
  || (c =? 8239)%N || (c =? 8287)%N || (c =? 12288)%N || (c =? 65279)%N
  || is_line_terminator c.

Fixpoint trimStart (s : jsstr) : jsstr :=
  match s with
  | c :: s' => if is_space c then trimStart s' else s
  | [] => []
  end.

Definition trimEnd (s : jsstr) : jsstr := rev (trimStart (rev s)).

(** [s.trim()] *)
Definition trim (s : jsstr) : jsstr := trimEnd (trimStart s).

Fixpoint starts_with (p s : jsstr) : bool :=
  match p, s with
  | [], _ => true
  | x :: p', y :: s' => N.eqb x y && starts_with p' s'
  | _ :: _, [] => false
  end.

(** [s.includes(p)] *)
Fixpoint includes (p s : jsstr) : bool :=
  starts_with p s ||
  match s with
  | [] => false
  | _ :: s' => includes p s'
  end.

(** [s.split(sep)] for a one-unit separator: the pieces between the
    occurrences of [sep]; never empty. *)
Fixpoint split (sep : N) (s : jsstr) : list jsstr :=
  match s with
  | [] => [[]]
  | c :: s' =>
      if N.eqb c sep then [] :: split sep s'
      else match split sep s' with
           | piece :: rest => (c :: piece) :: rest
           | [] => [[c]]
           end
  end.

End JsString.
Import JsString.

(** ** Regular expressions

    The fragment of ECMAScript regular expressions that [index.js] uses: a
    sequence of single characters and greedy starred character classes,
    optionally anchored at either end, optionally case-insensitive.  None of
    the source's expressions has the [m], [s], [u] or [g] flag. *)

Module RegExp.

Inductive atom :=
| Chr (c : N)     (* a literal character *)
| Dot             (* [.]: anything but a line terminator *)
| Space           (* [\s] *)
| AnyUnit.        (* [[\s\S]]: any code unit *)

Inductive item :=
| One (a : atom)
| Star (a : atom).   (* greedy [a*] *)

Record t := mk {
  startAnchor : bool;    (* leading [^] *)
  items : list item;
  endAnchor : bool;      (* trailing [$] *)
  ignoreCase : bool      (* flag [i] *)
}.

(** Canonicalize of the [i] flag without [u].  Upper-casing never takes a
    code unit above 127 to one below 128, so for the literals of the source
    (ASCII letters, the space, the hyphen and U+200E) comparing after
    folding a-z to A-Z is exact. *)
Definition fold_case (c : N) : N :=
  if ((97 <=? c)%N && (c <=? 122)%N)%bool then (c - 32)%N else c.

Definition atom_ok (ic : bool) (a : atom) (c : N) : bool :=
  match a with
  | Chr x => if ic then N.eqb (fold_case x) (fold_case c) else N.eqb x c
  | Dot => negb (is_line_terminator c)
  | Space => is_space c
  | AnyUnit => true
  end.

(** Greedy iteration of a character class followed by the continuation
    [k]: first try to take one more unit, and give it back when what
    follows then fails. *)
Fixpoint star_loop (ok : N -> bool) (k : jsstr -> option jsstr) (s : jsstr)
  : option jsstr :=
  match s with
  | c :: s' =>
      if ok c
      then match star_loop ok k s' with
           | Some m => Some (c :: m)
           | None => k s
           end
      else k s
  | [] => k s
  end.

(** Backtracking match of [its] at the head of [s]; the answer is the
    matched text. *)
Fixpoint match_here (ic eanchor : bool) (its : list item) (s : jsstr)
  {struct its} : option jsstr :=
  match its with
  | [] => if eanchor
          then match s with [] => Some [] | _ :: _ => None end
          else Some []
  | One a :: r =>
      match s with
      | c :: s' =>
          if atom_ok ic a c
          then option_map (cons c) (match_here ic eanchor r s')
          else None
      | [] => None
      end
  | Star a :: r => star_loop (atom_ok ic a) (match_here ic eanchor r) s
  end.

(** The leftmost match starting at some position of [s]. *)
Fixpoint scan (ic eanchor : bool) (its : list item) (s : jsstr)
  : option jsstr :=
  match match_here ic eanchor its s with
  | Some m => Some m
  | None => match s with
            | [] => None
            | _ :: s' => scan ic eanchor its s'
            end
  end.

(** [re.exec(s)[0]], and [s.match(re)[0]] for an expression without [g]. *)
Definition exec (re : t) (s : jsstr) : option jsstr :=
  if startAnchor re
  then match_here (ignoreCase re) (endAnchor re) (items re) s
  else scan (ignoreCase re) (endAnchor re) (items re) s.

(** [re.test(s)] *)
Definition test (re : t) (s : jsstr) : bool :=
  match exec re s with Some _ => true | None => false end.

(** The items of a literal run of characters. *)
Definition chars (s : string) : list item :=
  map (fun c => One (Chr c)) (lit s).

End RegExp.

(** ** JSON values and the operations of the language on them *)

(** A number [JNum m e] stands for the double nearest to [m * 10^e]; the
    program only ever observes whether a number is zero, which it is when
    [m] is. *)
#[warnings="-register-all"]
Inductive JsVal :=
| JUndefined
| JNull
| JBool (b : bool)
| JNum (m e : Z)
| JStr (s : jsstr)
| JArr (l : list JsVal)
| JObj (fields : list (jsstr * JsVal)).

Inductive exn :=
| TypeError       (* property of undefined/null, or call of a non-function *)
| SyntaxError     (* JSON.parse *)
| AxiosError.     (* rejected HTTP request *)

(** Pure code that may throw. *)
Inductive res (A : Type) :=
| Ok (a : A)
| Throw (e : exn).
Arguments Ok {A} a.
Arguments Throw {A} e.

Class Monad (m : Type -> Type) := {
  ret : forall A, A -> m A;
  bind : forall A B, m A -> (A -> m B) -> m B
}.
Arguments ret {m _ A} _.
Arguments bind {m _ A B} _ _.

Declare Scope js_scope.
Delimit Scope js_scope with js.
Notation "x <- c ;; k" := (bind c (fun x => k))
  (at level 61, c at next level, right associativity) : js_scope.
Open Scope js_scope.

#[export] Instance res_Monad : Monad res := {
  ret := fun A a => Ok a;
  bind := fun A B c k => match c with Ok a => k a | Throw e => Throw e end
}.

(** ToBoolean *)
Definition truthy (v : JsVal) : bool :=
  match v with
  | JUndefined | JNull => false
  | JBool b => b
  | JNum m _ => negb (m =? 0)%Z
  | JStr s => match s with [] => false | _ :: _ => true end
  | JArr _ | JObj _ => true
  end.

Fixpoint lookup (k : jsstr) (fields : list (jsstr * JsVal)) : JsVal :=
  match fields with
  | [] => JUndefined
  | (k', v) :: rest => if JsString.eqb k k' then v else lookup k rest
  end.

(** [v.k] for the property names that [index.js] reads, none of which is
    defined on a prototype: reading from undefined or null throws, a JSON
    object answers with its own field, every other value has no such
    property. *)
Definition get (v : JsVal) (k : string) : res JsVal :=
  match v with
  | JUndefined | JNull => Throw TypeError
  | JObj fields => Ok (lookup (lit k) fields)
  | _ => Ok JUndefined
  end.

(** [v?.k] *)
Definition get_opt (v : JsVal) (k : string) : res JsVal :=
  match v with
  | JUndefined | JNull => Ok JUndefined
  | _ => get v k
  end.

(** [v[0]] *)
Definition get0 (v : JsVal) : res JsVal :=
  match v with
  | JUndefined | JNull => Throw TypeError
  | JObj fields => Ok (lookup (lit "0") fields)
  | JArr l => Ok (nth 0 l JUndefined)
  | JStr s => Ok (match s with c :: _ => JStr [c] | [] => JUndefined end)
  | _ => Ok JUndefined
  end.

(** [a || b], with [b] evaluated only when [a] is falsy. *)
Definition or_else {m} `{Monad m} (a b : m JsVal) : m JsVal :=
  x <- a ;; if truthy x then ret x else b.
Notation "a '<||>' b" := (or_else a b) (at level 60, right associativity) : js_scope.

Definition is_str (v : JsVal) (s : jsstr) : bool :=
  match v with JStr s' => JsString.eqb s' s | _ => false end.

(** [v.includes(needle)] with a string needle.  Strings search for a
    substring, arrays for an element; no other JSON value has a callable
    [includes] (a field of that name holds data, never a function). *)
Definition call_includes (v : JsVal) (needle : jsstr) : res bool :=
  match v with
  | JStr s => Ok (JsString.includes needle s)
  | JArr l => Ok (existsb (fun x => is_str x needle) l)
  | _ => Throw TypeError
  end.

(** [v.trim()]: only strings have the method. *)
Definition call_trim (v : JsVal) : res jsstr :=
  match v with
  | JStr s => Ok (JsString.trim s)
  | _ => Throw TypeError
  end.

(** [v.split('@')]: only strings have the method. *)
Definition call_split_at (v : JsVal) : res JsVal :=
  match v with
  | JStr s => Ok (JArr (map JStr (JsString.split 64 s)))
  | _ => Throw TypeError
  end.

(** [v.substring(0, 100)]: only strings have the method. *)
Definition call_substring (v : JsVal) : res jsstr :=
  match v with
  | JStr s => Ok (firstn 100 s)
  | _ => Throw TypeError
  end.

(** The object has an own property named [k]. *)
Definition has_key (k : jsstr) (fields : list (jsstr * JsVal)) : bool :=
  existsb (fun kv => JsString.eqb k (fst kv)) fields.

(** Whether ToString, the conversion that a template literal applies to a
    substitution, succeeds.  Primitives always convert.  An array converts
    through [join], which converts each element that is neither undefined
    nor null.  An object converts through its [toString]: a JSON object
    without an own property of that name inherits the callable one of
    [Object.prototype]; one with such a property shadows it with a value
    that is not callable, [valueOf] then gives back the object itself or is
    not callable either, and the conversion throws. *)
Fixpoint stringifiable (v : JsVal) : bool :=
  match v with
  | JArr l => forallb stringifiable l
  | JObj fields => negb (has_key (lit "toString") fields)
  | _ => true
  end.

(** [`${v}`], for whether it throws; the text it gives is not modelled. *)
Definition ToString (v : JsVal) : res unit :=
  if stringifiable v then Ok tt else Throw TypeError.

(** [pattern.test(v)]; the handler only gets here with a string. *)
Definition call_test (pattern : RegExp.t) (v : JsVal) : bool :=
  match v with
  | JStr s => RegExp.test pattern s
  | _ => false
  end.

(** ** The message filter *)

Definition LRM : N := 8206.   (* U+200E *)

Definition SYSTEM_MESSAGE_PATTERNS : list RegExp.t :=
  let open := [RegExp.One (RegExp.Chr LRM); RegExp.Star RegExp.Dot] in
  let tail := [RegExp.Star RegExp.Dot] in
  [ RegExp.mk true (open ++ RegExp.chars "changed the group" ++ tail) true true;
    RegExp.mk true (open ++ RegExp.chars "added you") true true;
    RegExp.mk true (open ++ RegExp.chars "added" ++ tail) true true;
    RegExp.mk true (open ++ RegExp.chars "removed" ++ tail) true true;
    RegExp.mk true (open ++ RegExp.chars "left") true true;
    RegExp.mk true (open ++ RegExp.chars "created group") false true;
    RegExp.mk true (RegExp.chars "Messages and calls are end-to-end encrypted") false true;
    RegExp.mk true (RegExp.chars "Waiting for this message") false true;
    RegExp.mk true (RegExp.chars "This message was deleted") false true;
    RegExp.mk true (RegExp.chars "You deleted this message") false true;
    RegExp.mk true (RegExp.chars "null") true true;
    RegExp.mk true [RegExp.Star RegExp.Space] true false ].

Definition isSystemMessage (body : JsVal) : res bool :=
  if negb (truthy body) then Ok true
  else
    t <- call_trim body ;;
    if JsString.eqb t [] then Ok true
    else Ok (existsb (fun pattern => call_test pattern body)
               SYSTEM_MESSAGE_PATTERNS).

(** ** The outside world and effectful code *)

(** An outbound request made by the service.  The prompt sent to the model
    is a fixed text around two interpolated values, [sourceName] and
    [message]; the request is recorded by these two.  A request to the
    spreadsheet endpoint is recorded by the object [data] handed to
    [axios.post]; the body that travels is its JSON serialisation,
    [wire data] below. *)
Inductive call :=
| CallOpenAI (sourceName message : JsVal)
| CallSheets (data : JsVal).

(** What an HTTP POST comes back with. *)
Inductive http_result :=
| HttpResponse (status : Z) (data : JsVal)
| NetworkError.

(** Everything [index.js] obtains from outside itself. *)
Record World := {
  JSON_parse : jsstr -> option JsVal;        (* [None]: throws SyntaxError *)
  openai : JsVal -> JsVal -> http_result;    (* completion endpoint, by prompt *)
  sheets : JsVal -> http_result;             (* spreadsheet endpoint, by record *)
  now : jsstr;                               (* [new Date().toISOString()] *)
  message_of : exn -> jsstr                  (* [error.message] *)
}.

(** Code that may throw and that appends to the trace of outbound calls. *)
Definition M (A : Type) := list call -> res A * list call.

#[export] Instance M_Monad : Monad M := {
  ret := fun A a tr => (Ok a, tr);
  bind := fun A B c k tr =>
            match c tr with
            | (Ok a, tr') => k a tr'
            | (Throw e, tr') => (Throw e, tr')
            end
}.

Definition lift {A} (r : res A) : M A := fun tr => (r, tr).

(** [try { body } catch (error) { handler }] *)
Definition try_catch {A} (body : M A) (handler : exn -> M A) : M A :=
  fun tr =>
    match body tr with
    | (Ok a, tr') => (Ok a, tr')
    | (Throw e, tr') => handler e tr'
    end.

(** The default [validateStatus] of axios: a request resolves for a status
    in 200..299 and rejects for any other status and for a failed
    transport. *)
Definition accepted (r : http_result) : option JsVal :=
  match r with
  | HttpResponse status data =>
      if ((200 <=? status)%Z && (status <? 300)%Z)%bool then Some data else None
  | NetworkError => None
  end.

(** [await axios.post(...)], giving [response.data]. *)
Definition axios_post (c : call) (r : http_result) : M JsVal :=
  fun tr =>
    (match accepted r with
     | Some data => Ok data
     | None => Throw AxiosError
     end, tr ++ [c]).

Definition obj (fields : list (string * JsVal)) : JsVal :=
  JObj (map (fun kv => (lit (fst kv), snd kv)) fields).

Definition str (s : string) : JsVal := JStr (lit s).

(** [{ isActionItem: false }] *)
Definition NOT_ACTION_ITEM : JsVal := obj [("isActionItem", JBool false)].

(** [/\{[\s\S]*\}/] *)
Definition JSON_OBJECT_RE : RegExp.t :=
  RegExp.mk false
    [RegExp.One (RegExp.Chr 123); RegExp.Star RegExp.AnyUnit;
     RegExp.One (RegExp.Chr 125)]
    false false.

(** [response.data.choices[0].message.content] *)
Definition rawContentOf (data : JsVal) : res JsVal :=
  choices <- get data "choices" ;;
  first <- get0 choices ;;
  message <- get first "message" ;;
  get message "content".

(** [response.data.choices[0].message.content.trim()] *)
Definition contentOf (data : JsVal) : res jsstr :=
  content <- rawContentOf data ;;
  call_trim content.

(** Lines 52-58: from the model's text to the classification. *)
Definition parseContent (w : World) (content : jsstr) : res JsVal :=
  match RegExp.exec JSON_OBJECT_RE content with
  | Some jsonMatch =>
      match JSON_parse w jsonMatch with
      | Some v => Ok v
      | None => Throw SyntaxError
      end
  | None => Ok NOT_ACTION_ITEM
  end.

(** Line 33: the prompt, a template literal with [sourceName] and then
    [message] in it.  It is built before the [try] of line 39. *)
Definition promptOf (message sourceName : JsVal) : res unit :=
  _ <- ToString sourceName ;;
  ToString message.

Definition classifyWithGPT (w : World) (message sourceName : JsVal) : M JsVal :=
  _ <- lift (promptOf message sourceName) ;;
  try_catch
    (data <- axios_post (CallOpenAI sourceName message)
                        (openai w sourceName message) ;;
     lift (content <- contentOf data ;; parseContent w content))
    (fun _ => ret NOT_ACTION_ITEM).

Definition writeToGoogleSheets (w : World) (data : JsVal) : M bool :=
  try_catch
    (_ <- axios_post (CallSheets data) (sheets w data) ;; ret true)
    (fun _ => ret false).

(** ** The webhook handler *)

(** [res.status(status).json(body)], by the value [body] handed to it;
    [res.json(body)] has status 200.  The body that travels is the JSON
    serialisation of that value, [wire body] below. *)
Inductive response := Json (status : Z) (body : JsVal).

Definition skipped (reason : string) : response :=
  Json 200 (obj [("status", str "skipped"); ("reason", str reason)]).

(** line 85 *)
Definition eventOf (payload : JsVal) : res JsVal :=
  get payload "event" <||> Ok (str "message").

(** line 94 *)
Definition messageDataOf (payload : JsVal) : res JsVal :=
  get payload "payload" <||> Ok payload.

(** line 95 *)
Definition bodyOf (messageData : JsVal) : res JsVal :=
  get messageData "body" <||> get messageData "text"
  <||> get messageData "caption" <||> Ok (JStr []).

(** line 96 *)
Definition fromMeOf (messageData : JsVal) : res JsVal :=
  get messageData "fromMe" <||> get messageData "from_me" <||> Ok (JBool false).

(** line 111 *)
Definition chatIdOf (messageData : JsVal) : res JsVal :=
  get messageData "chatId" <||> get messageData "from"
  <||> (chat <- get messageData "chat" ;; get_opt chat "id")
  <||> Ok (JStr []).

(** lines 112-117 *)
Definition sourceNameOf (messageData chatId : JsVal) : res JsVal :=
  (data <- get messageData "_data" ;; get_opt data "notifyName")
  <||> get messageData "notifyName"
  <||> get messageData "pushName"
  <||> (chat <- get messageData "chat" ;; get_opt chat "name")
  <||> (parts <- call_split_at chatId ;; get0 parts)
  <||> Ok (str "Unknown").

(** lines 127-136 *)
Definition sheetDataOf (w : World) (sourceName body classification chatId : JsVal)
  : res JsVal :=
  responsible <- get classification "responsible" <||> Ok (str "Unknown") ;;
  urgency <- get classification "urgency" <||> Ok (str "Normal") ;;
  due <- get classification "due" <||> Ok (str "None") ;;
  Ok (obj [("timestamp", JStr (now w));
           ("source", sourceName);
           ("message", body);
           ("responsible", responsible);
           ("urgency", urgency);
           ("due", due);
           ("status", str "Open");
           ("chatId", chatId)]).

Definition processed_action (classification : JsVal) : response :=
  Json 200 (obj [("status", str "processed");
                 ("isActionItem", JBool true);
                 ("classification", classification)]).

Definition processed_no_action : response :=
  Json 200 (obj [("status", str "processed"); ("isActionItem", JBool false)]).

Definition server_error (w : World) (e : exn) : response :=
  Json 500 (obj [("status", str "error"); ("message", JStr (message_of w e))]).

(** Line 119: the log line, a template literal with [sourceName] and then
    [body.substring(0, 100)] in it. *)
Definition logLineOf (sourceName body : JsVal) : res unit :=
  _ <- ToString sourceName ;;
  _ <- call_substring body ;;
  Ok tt.

(** The body of the handler's [try] block.  Of the [console.log] calls only
    the one of line 119 is kept, whose argument is computed and can throw;
    the others print values as they are. *)
Definition webhook_try (w : World) (payload : JsVal) : M response :=
  event <- lift (eventOf payload) ;;
  is_message <- lift (call_includes event (lit "message")) ;;
  if negb is_message then ret (skipped "non-message event") else
  messageData <- lift (messageDataOf payload) ;;
  body <- lift (bodyOf messageData) ;;
  fromMe <- lift (fromMeOf messageData) ;;
  if truthy fromMe then ret (skipped "outgoing message") else
  system <- lift (isSystemMessage body) ;;
  if system then ret (skipped "system or empty message") else
  chatId <- lift (chatIdOf messageData) ;;
  sourceName <- lift (sourceNameOf messageData chatId) ;;
  _ <- lift (logLineOf sourceName body) ;;
  classification <- classifyWithGPT w body sourceName ;;
  isActionItem <- lift (get classification "isActionItem") ;;
  if truthy isActionItem then
    sheetData <- lift (sheetDataOf w sourceName body classification chatId) ;;
    _ <- writeToGoogleSheets w sheetData ;;
    ret (processed_action classification)
  else ret processed_no_action.

(** [app.post('/webhook', ...)]: the response and the outbound calls made,
    for the request body [req.body]. *)
Definition webhook (w : World) (reqBody : JsVal) : response * list call :=
  match webhook_try w reqBody [] with
  | (Ok r, tr) => (r, tr)
  | (Throw e, tr) => (server_error w e, tr)
  end.

(** ** A reference [JSON.parse]

    [JSON.parse] belongs to the language, not to the repository, and the
    general results below hold for whatever [World] supplies.  The concrete
    runs use this reader of the JSON grammar (RFC 8259): insignificant
    whitespace is SP, TAB, LF and CR; a later duplicate key overwrites an
    earlier one; anything after the value but whitespace is an error. *)

Module Json.

Definition is_ws (c : N) : bool :=
  (c =? 32)%N || (c =? 9)%N || (c =? 10)%N || (c =? 13)%N.

Fixpoint skip_ws (s : jsstr) : jsstr :=
  match s with
  | c :: s' => if is_ws c then skip_ws s' else s
  | [] => []
  end.

Definition digit (c : N) : option Z :=
  if ((48 <=? c)%N && (c <=? 57)%N)%bool then Some (Z.of_N c - 48)%Z else None.

Definition hex (c : N) : option N :=
  if ((48 <=? c)%N && (c <=? 57)%N)%bool then Some (c - 48)%N
  else if ((97 <=? c)%N && (c <=? 102)%N)%bool then Some (c - 87)%N
  else if ((65 <=? c)%N && (c <=? 70)%N)%bool then Some (c - 55)%N
  else None.

(** A run of digits: its value on top of [acc], how many there were, and
    what follows. *)
Fixpoint digits (s : jsstr) (acc : Z) (n : Z) : Z * Z * jsstr :=
  match s with
  | c :: s' =>
      match digit c with
      | Some d => digits s' (10 * acc + d)%Z (n + 1)%Z
      | None => (acc, n, s)
      end
  | [] => (acc, n, s)
  end.

(** The characters of a string after its opening quote. *)
Fixpoint string_body (s : jsstr) : option (jsstr * jsstr) :=
  match s with
  | [] => None
  | 34%N :: r => Some ([], r)
  | 92%N :: e :: r =>
      let simple (c : N) :=
        match string_body r with
        | Some (t, r') => Some (c :: t, r')
        | None => None
        end in
      match e with
      | 34%N => simple 34%N
      | 92%N => simple 92%N
      | 47%N => simple 47%N
      | 98%N => simple 8%N
      | 102%N => simple 12%N
      | 110%N => simple 10%N
      | 114%N => simple 13%N
      | 116%N => simple 9%N
      | 117%N =>
          match r with
          | a :: b :: c :: d :: r4 =>
              match hex a, hex b, hex c, hex d with
              | Some ha, Some hb, Some hc, Some hd =>
                  match string_body r4 with
                  | Some (t, r') =>
                      Some ((ha * 4096 + hb * 256 + hc * 16 + hd)%N :: t, r')
                  | None => None
                  end
              | _, _, _, _ => None
              end
          | _ => None
          end
      | _ => None
      end
  | c :: r =>
      if (c <? 32)%N then None
      else match string_body r with
           | Some (t, r') => Some (c :: t, r')
           | None => None
           end
  end.

(** A decimal [m * 10^e] so small that the nearest double is zero: at most
    [2^-1075], half of the least positive double. *)
Definition rounds_to_zero (m e : Z) : bool :=
  ((e <? 0)%Z && (Z.abs m * 2 ^ 1075 <=? 10 ^ (- e))%Z)%bool.

Definition num (m e : Z) : JsVal :=
  if rounds_to_zero m e then JNum 0 0 else JNum m e.

(** [-? int frac? exp?], from the first character of the integer part. *)
Definition number (neg : bool) (s : jsstr) : option (JsVal * jsstr) :=
  let '(i, ni, r) := digits s 0%Z 0%Z in
  let leading_zero := match s with 48%N :: _ => (1 <? ni)%Z | _ => false end in
  if ((ni =? 0)%Z || leading_zero)%bool then None else
  let frac :=
    match r with
    | 46%N :: r1 =>
        let '(m, nf, r2) := digits r1 i 0%Z in
        if (nf =? 0)%Z then None else Some (m, (- nf)%Z, r2)
    | _ => Some (i, 0%Z, r)
    end in
  match frac with
  | None => None
  | Some (m, e, r2) =>
      let sign (z : Z) := if neg then (- z)%Z else z in
      let exponent (eneg : bool) (r3 : jsstr) :=
        let '(x, nx, r4) := digits r3 0%Z 0%Z in
        if (nx =? 0)%Z then None
        else Some (num (sign m) (e + (if eneg then - x else x))%Z, r4) in
      match r2 with
      | 101%N :: 43%N :: r3 | 69%N :: 43%N :: r3 => exponent false r3
      | 101%N :: 45%N :: r3 | 69%N :: 45%N :: r3 => exponent true r3
      | 101%N :: r3 | 69%N :: r3 => exponent false r3
      | _ => Some (num (sign m) e, r2)
      end
  end.

(** [fields] with [k] set to [v]. *)
Fixpoint set_field (k : jsstr) (v : JsVal) (fields : list (jsstr * JsVal))
  : list (jsstr * JsVal) :=
  match fields with
  | [] => [(k, v)]
  | (k', v') :: rest =>
      if JsString.eqb k k' then (k, v) :: rest
      else (k', v') :: set_field k v rest
  end.

(** A value, then the elements of an array after its first one, then the
    members of an object; [fuel] bounds the nesting and the lengths. *)
Fixpoint value (fuel : nat) (s : jsstr) : option (JsVal * jsstr) :=
  match fuel with
  | O => None
  | S fuel' =>
      let elements :=
        fix elements (n : nat) (acc : list JsVal) (s : jsstr)
          : option (JsVal * jsstr) :=
          match n with
          | O => None
          | S n' =>
              match skip_ws s with
              | 93%N :: r => Some (JArr (rev acc), r)
              | 44%N :: r =>
                  match value fuel' r with
                  | Some (v, r') => elements n' (v :: acc) r'
                  | None => None
                  end
              | _ => None
              end
          end in
      let member (s : jsstr) : option (jsstr * JsVal * jsstr) :=
        match skip_ws s with
        | 34%N :: r =>
            match string_body r with
            | Some (k, r1) =>
                match skip_ws r1 with
                | 58%N :: r2 =>
                    match value fuel' r2 with
                    | Some (v, r3) => Some (k, v, r3)
                    | None => None
                    end
                | _ => None
                end
            | None => None
            end
        | _ => None
        end in
      let members :=
        fix members (n : nat) (acc : list (jsstr * JsVal)) (s : jsstr)
          : option (JsVal * jsstr) :=
          match n with
          | O => None
          | S n' =>
              match skip_ws s with
              | 125%N :: r => Some (JObj acc, r)
              | 44%N :: r =>
                  match member r with
                  | Some (k, v, r') => members n' (set_field k v acc) r'
                  | None => None
                  end
              | _ => None
              end
          end in
      match skip_ws s with
      | 123%N :: r =>
          match skip_ws r with
          | 125%N :: r' => Some (JObj [], r')
          | _ =>
              match member r with
              | Some (k, v, r') => members (List.length r') [(k, v)] r'
              | None => None
              end
          end
      | 91%N :: r =>
          match skip_ws r with
          | 93%N :: r' => Some (JArr [], r')
          | _ =>
              match value fuel' r with
              | Some (v, r') => elements (List.length r') [v] r'
              | None => None
              end
          end
      | 34%N :: r =>
          match string_body r with
          | Some (t, r') => Some (JStr t, r')
          | None => None
          end
      | 116%N :: 114%N :: 117%N :: 101%N :: r => Some (JBool true, r)
      | 102%N :: 97%N :: 108%N :: 115%N :: 101%N :: r => Some (JBool false, r)
      | 110%N :: 117%N :: 108%N :: 108%N :: r => Some (JNull, r)
      | 45%N :: r => number true r
      | r => number false r
      end
  end.

(** [JSON.parse(text)]; [None] for a SyntaxError. *)
Definition parse (text : jsstr) : option JsVal :=
  match value (S (List.length text)) text with
  | Some (v, r) => match skip_ws r with [] => Some v | _ :: _ => None end
  | None => None
  end.

End Json.

(** ** Stub worlds for concrete runs *)

(** A 200 answer of the completion endpoint whose
    [choices[0].message.content] is [text]. *)
Definition completion (text : jsstr) : http_result :=
  HttpResponse 200
    (obj [("choices", JArr [obj [("message", obj [("content", JStr text)])]])]).

Definition stub_world (llm sink : http_result) : World := {|
  JSON_parse := Json.parse;
  openai := fun _ _ => llm;
  sheets := fun _ => sink;
  now := lit "2024-01-01T00:00:00.000Z";
  message_of := fun _ => lit "error"
|}.

Definition sink_ok : http_result := HttpResponse 200 (str "ok").
Definition sink_down : http_result := HttpResponse 503 (str "unavailable").

(** The end-to-end event of the specification. *)
Definition contract_event : JsVal :=
  obj [("event", str "message");
       ("payload",
        obj [("body", str "Please send the contract by Monday, urgent!");
             ("fromMe", JBool false);
             ("chatId", str "999@c.us");
             ("notifyName", str "Alice")])].

Definition contract_classification : JsVal :=
  obj [("isActionItem", JBool true); ("responsible", str "Alice");
       ("urgency", str "Urgent"); ("due", str "Monday");
       ("summary", str "Send contract")].

(** The text between the braces of the model's answer. *)
Definition contract_members : jsstr :=
  json_lit "'isActionItem': true, 'responsible': 'Alice', 'urgency': 'Urgent', 'due': 'Monday', 'summary': 'Send contract'".

Definition contract_answer : jsstr := 123%N :: contract_members ++ [125%N].

(** ** Vocabulary of the statements *)

(** Two strings that differ at most in the case of their ASCII letters. *)
Definition same_fold (s s' : jsstr) : Prop :=
  map RegExp.fold_case s = map RegExp.fold_case s'.

(** The items whose verdict does not depend on ASCII case under flag [ic]. *)
Definition case_blind (ic : bool) (i : RegExp.item) : bool :=
  match i with
  | RegExp.One (RegExp.Chr _) | RegExp.Star (RegExp.Chr _) => ic
  | _ => true
  end.

(** The items [its] match at the head of [s]. *)
Definition succeeds (ic ea : bool) (its : list RegExp.item) (s : jsstr) : Prop :=
  exists m, RegExp.match_here ic ea its s = Some m.

(** No line terminator in [s]. *)
Definition one_line (s : jsstr) : bool :=
  forallb (fun c => negb (is_line_terminator c)) s.

(** The bodies that the specification lists as system messages: notices of
    a change of group membership, marked with a leading left-to-right mark;
    the encryption banner; the placeholders of a message that is waited for
    or was deleted by either party; the literal "null". *)
Inductive system_notice : jsstr -> Prop :=
| group_change_notice : forall kw who rest,
    In kw ["changed the group"; "added"; "removed"] ->
    one_line who = true -> one_line rest = true ->
    system_notice (LRM :: who ++ lit kw ++ rest)
| group_change_closing : forall kw who,
    In kw ["added you"; "left"] ->
    one_line who = true ->
    system_notice (LRM :: who ++ lit kw)
| group_created_notice : forall who rest,
    one_line who = true ->
    system_notice (LRM :: who ++ lit "created group" ++ rest)
| placeholder_notice : forall kw rest,
    In kw ["Messages and calls are end-to-end encrypted";
           "Waiting for this message";
           "This message was deleted";
           "You deleted this message"] ->
    system_notice (lit kw ++ rest)
| null_literal : system_notice (lit "null").

(** Undefined or null. *)
Definition nullish (v : JsVal) : bool :=
  match v with
  | JUndefined | JNull => true
  | _ => false
  end.

(** [c] occurs in [s]. *)
Definition has (c : N) (s : jsstr) : bool := existsb (N.eqb c) s.

(** The field [k] of [v], undefined when [v] is not an object. *)
Definition field (v : JsVal) (k : string) : JsVal :=
  match v with
  | JObj fields => lookup (lit k) fields
  | _ => JUndefined
  end.

(** The first truthy value of [vs], else [d]. *)
Fixpoint first_truthy (vs : list JsVal) (d : JsVal) : JsVal :=
  match vs with
  | [] => d
  | v :: rest => if truthy v then v else first_truthy rest d
  end.

(** The first value of [vs] that is not undefined, else [d]. *)
Fixpoint first_defined (vs : list JsVal) (d : JsVal) : JsVal :=
  match vs with
  | [] => d
  | JUndefined :: rest => first_defined rest d
  | v :: _ => v
  end.

(** The first non-empty string of [ss], else [d]. *)
Fixpoint first_nonempty (ss : list jsstr) (d : jsstr) : jsstr :=
  match ss with
  | [] => d
  | [] :: rest => first_nonempty rest d
  | s :: _ => s
  end.

(** A field that is absent or holds a string. *)
Definition absent_or_string (v : JsVal) : bool :=
  match v with
  | JUndefined | JStr _ => true
  | _ => false
  end.

(** The text of a string field, empty when the field is absent. *)
Definition text_of (v : JsVal) : jsstr :=
  match v with
  | JStr s => s
  | _ => []
  end.

(** The part of [s] before its first '@' (all of [s] when it has none). *)
Fixpoint before_at (s : jsstr) : jsstr :=
  match s with
  | [] => []
  | c :: s' => if N.eqb c 64 then [] else c :: before_at s'
  end.

(** The chat id as the specification words it: the first non-empty of
    [chatId], [from] and the nested [chat.id], else the empty string. *)
Definition chatId_spec (md : JsVal) : jsstr :=
  first_nonempty
    [text_of (field md "chatId"); text_of (field md "from");
     text_of (field (field md "chat") "id")] [].

(** The source name as the specification words it: the first non-empty of
    the nested [_data.notifyName], [notifyName], [pushName], the nested
    [chat.name] and the chat id up to its first '@', else "Unknown". *)
Definition sourceName_spec (md : JsVal) : jsstr :=
  first_nonempty
    [text_of (field (field md "_data") "notifyName");
     text_of (field md "notifyName");
     text_of (field md "pushName");
     text_of (field (field md "chat") "name");
     before_at (chatId_spec md)]
    (lit "Unknown").

(** Message data whose name and chat-id fields are strings where present,
    as the data model of the specification has them. *)
Definition typed_message (md : JsVal) : bool :=
  negb (nullish md) &&
  forallb absent_or_string
    [field (field md "_data") "notifyName"; field md "notifyName";
     field md "pushName"; field (field md "chat") "name";
     field md "chatId"; field md "from"; field (field md "chat") "id"].

(** A classification field as the specification words it: the default
    stands in for an omitted field only. *)
Definition default_if_omitted (v d : JsVal) : JsVal :=
  match v with
  | JUndefined => d
  | _ => v
  end.

(** Whether the double nearest to [m * 10^e] is finite: the magnitude is
    below [2^1024 - 2^970], half way from the largest double to [2^1024]. *)
Definition finite (m e : Z) : bool :=
  if (0 <=? e)%Z
  then (Z.abs m * 10 ^ e <? 2 ^ 1024 - 2 ^ 970)%Z
  else (Z.abs m <? (2 ^ 1024 - 2 ^ 970) * 10 ^ (- e))%Z.

(** What the receiver of [JSON.stringify(v)] reads: a number that is not
    finite is written as null, an undefined element of an array too, and an
    undefined field of an object is left out. *)
Fixpoint wire (v : JsVal) : JsVal :=
  match v with
  | JNum m e => if finite m e then JNum m e else JNull
  | JArr l =>
      JArr (map (fun x => match wire x with JUndefined => JNull | y => y end) l)
  | JObj fields =>
      JObj ((fix members (fs : list (jsstr * JsVal)) : list (jsstr * JsVal) :=
               match fs with
               | [] => []
               | (k, x) :: rest =>
                   match wire x with
                   | JUndefined => members rest
                   | y => (k, y) :: members rest
                   end
               end) fields)
  | _ => v
  end.

(** The record handed to the sink request for the classification [c]. *)
Definition sheet_record (w : World) (sourceName body c chatId : JsVal) : JsVal :=
  obj [("timestamp", JStr (now w));
       ("source", sourceName);
       ("message", body);
       ("responsible", first_truthy [field c "responsible"] (str "Unknown"));
       ("urgency", first_truthy [field c "urgency"] (str "Normal"));
       ("due", first_truthy [field c "due"] (str "None"));
       ("status", str "Open");
       ("chatId", chatId)].

Definition is_string_or_array (v : JsVal) : bool :=
  match v with
  | JStr _ | JArr _ => true
  | _ => false
  end.

Definition is_2xx (r : http_result) : bool :=
  match accepted r with
  | Some _ => true
  | None => false
  end.

(** The prompt of line 33 can be built. *)
Definition prompt_ok (message sourceName : JsVal) : bool :=
  stringifiable sourceName && stringifiable message.

(** What [classifyWithGPT] returns once the prompt is built, as a function
    of the world. *)
Definition classification (w : World) (message sourceName : JsVal) : JsVal :=
  match accepted (openai w sourceName message) with
  | Some data =>
      match (content <- contentOf data ;; parseContent w content) with
      | Ok v => v
      | Throw _ => NOT_ACTION_ITEM
      end
  | None => NOT_ACTION_ITEM
  end.

(** The ways in which a classification fails. *)
Inductive classifier_fails (w : World) (message sourceName : JsVal) : Prop :=
| transport_error :
    openai w sourceName message = NetworkError ->
    classifier_fails w message sourceName
| non_2xx_response : forall status data,
    openai w sourceName message = HttpResponse status data ->
    (status < 200 \/ 300 <= status)%Z ->
    classifier_fails w message sourceName
| no_json_substring : forall data content,
    accepted (openai w sourceName message) = Some data ->
    contentOf data = Ok content ->
    RegExp.exec JSON_OBJECT_RE content = None ->
    classifier_fails w message sourceName
| json_parse_error : forall data content jsonMatch,
    accepted (openai w sourceName message) = Some data ->
    contentOf data = Ok content ->
    RegExp.exec JSON_OBJECT_RE content = Some jsonMatch ->
    JSON_parse w jsonMatch = None ->
    classifier_fails w message sourceName.

(** The handler gets past every skip and past the log line of line 119, and
    reaches the classifier with [body], [chatId] and [sourceName] read from
    [messageData]. *)
Definition reaches_classifier
  (payload messageData body chatId sourceName : JsVal) : Prop :=
  exists event fromMe,
    eventOf payload = Ok event /\
    call_includes event (lit "message") = Ok true /\
    messageDataOf payload = Ok messageData /\
    bodyOf messageData = Ok body /\
    fromMeOf messageData = Ok fromMe /\
    truthy fromMe = false /\
    isSystemMessage body = Ok false /\
    chatIdOf messageData = Ok chatId /\
    sourceNameOf messageData chatId = Ok sourceName /\
    logLineOf sourceName body = Ok tt.

(** The handler takes the event for an incoming message and reads its
    fields from [messageData]. *)
Definition incoming_message (payload messageData : JsVal) : Prop :=
  exists event fromMe,
    eventOf payload = Ok event /\
    call_includes event (lit "message") = Ok true /\
    messageDataOf payload = Ok messageData /\
    fromMeOf messageData = Ok fromMe /\
    truthy fromMe = false.

(** The message text as the handler picks it: the first truthy of [body],
    [text] and [caption], else the empty string. *)
Definition body_of (messageData : JsVal) : JsVal :=
  first_truthy
    [field messageData "body"; field messageData "text";
     field messageData "caption"] (JStr []).

(** The chat id as the handler picks it: the first truthy of [chatId],
    [from] and the nested [chat.id], else the empty string. *)
Definition chatId_of (messageData : JsVal) : JsVal :=
  first_truthy
    [field messageData "chatId"; field messageData "from";
     field (field messageData "chat") "id"] (JStr []).

(** The name fields in the order in which the handler consults them. *)
Definition names_of (messageData : JsVal) : list JsVal :=
  [field (field messageData "_data") "notifyName";
   field messageData "notifyName";
   field messageData "pushName";
   field (field messageData "chat") "name"].

Definition is_string (v : JsVal) : bool :=
  match v with
  | JStr _ => true
  | _ => false
  end.

(** The rest of the handler once the classifier has answered [c]. *)
Definition after_classification
  (w : World) (sourceName body chatId c : JsVal) : response * list call :=
  match get c "isActionItem" with
  | Throw e => (server_error w e, [CallOpenAI sourceName body])
  | Ok a =>
      if truthy a then
        match sheetDataOf w sourceName body c chatId with
        | Ok sheetData =>
            (processed_action c,
             [CallOpenAI sourceName body; CallSheets sheetData])
        | Throw e => (server_error w e, [CallOpenAI sourceName body])
        end
      else (processed_no_action, [CallOpenAI sourceName body])
  end.

(** The [status] field of a response body. *)
Definition status_field (r : response) : JsVal :=
  match r with
  | Json _ body => field body "status"
  end.

(** The reasons with which the handler skips an event. *)
Definition skip_reasons : list string :=
  ["non-message event"; "outgoing message"; "system or empty message"].

(** A computation that throws nothing but a TypeError. *)
Definition type_errors_only {A} (r : res A) : Prop :=
  forall e, r = Throw e -> e = TypeError.

(** ** The other endpoints and the configuration *)

(** [app.get('/health', ...)] *)
Definition health (w : World) : response :=
  Json 200 (obj [("status", str "healthy"); ("timestamp", JStr (now w))]).

(** [app.get('/', ...)] *)
Definition root : response :=
  Json 200
    (obj [("service", str "WhatsApp Message Filter");
          ("endpoints",
           obj [("webhook", str "POST /webhook"); ("health", str "GET /health")])]).

(** [process.env.PORT || 3000], for the environment variable [env]
    (unset, or a string). *)
Definition PORT (env : option jsstr) : JsVal :=
  match env with
  | Some (c :: s) => JStr (c :: s)
  | _ => JNum 3000 0
  end.

(** ** Concrete inputs *)

Definition hello_event : JsVal :=
  obj [("body", str "hello"); ("chatId", str "1234@g.us")].

(** A model answer without any JSON in it. *)
Definition prose_world : World :=
  stub_world (completion (lit "I cannot tell.")) sink_ok.

(** A model answer with one JSON object and a brace in the prose after it. *)
Definition smiley_object : jsstr := json_lit "{'isActionItem': true}".

Definition smiley_answer : jsstr :=
  lit "Here you go: " ++ smiley_object ++ lit " :-}".

Definition smiley_world : World :=
  stub_world (completion smiley_answer) sink_ok.

(** A model answer with one JSON object between prose and code fences. *)
Definition fenced_answer : jsstr :=
  lit "Sure: ```json " ++ contract_answer ++ lit " ``` Done.".

Definition fenced_world : World :=
  stub_world (completion fenced_answer) sink_ok.

(** An incoming message flagged as outgoing by [from_me] only. *)
Definition from_me_event : JsVal :=
  obj [("body", str "hello"); ("fromMe", JBool false); ("from_me", JBool true)].

(** A model answer with an empty [responsible] and a null [due]. *)
Definition sparse_answer : jsstr :=
  json_lit "{'isActionItem': true, 'responsible': '', 'urgency': 'Low', 'due': null}".

Definition sparse_classification : JsVal :=
  obj [("isActionItem", JBool true); ("responsible", JStr []);
       ("urgency", str "Low"); ("due", JNull)].

Definition sparse_world : World :=
  stub_world (completion sparse_answer) sink_ok.

(** Events whose [event] field is present but falsy, or an array. *)
Definition empty_tag_event : JsVal :=
  obj [("event", JStr []); ("body", str "hello")].

Definition false_tag_event : JsVal :=
  obj [("event", JBool false); ("body", str "hello")].

Definition array_tag_event : JsVal :=
  obj [("event", JArr [str "message"]); ("body", str "hello")].

Definition numeric_tag_event : JsVal :=
  obj [("event", JNum 7 0); ("body", str "hello")].

Definition status_event : JsVal :=
  obj [("event", str "session.status"); ("body", str "hello")].

(** The record of the contract message. *)
Definition contract_record : JsVal :=
  obj [("timestamp", str "2024-01-01T00:00:00.000Z");
       ("source", str "Alice");
       ("message", str "Please send the contract by Monday, urgent!");
       ("responsible", str "Alice");
       ("urgency", str "Urgent");
       ("due", str "Monday");
       ("status", str "Open");
       ("chatId", str "999@c.us")].

(** A message whose text is whitespace only, one whose [body] is a number,
    and one whose sender is a number. *)
Definition blank_event : JsVal :=
  obj [("event", str "message"); ("payload", obj [("text", str "   ")])].

Definition numeric_body_event : JsVal :=
  obj [("body", JNum 42 0); ("chatId", str "1234@g.us")].

Definition numeric_sender_event : JsVal :=
  obj [("body", str "hello"); ("from", JNum 4917012345 0)].

(** A delivery receipt, whose tag contains "message". *)
Definition ack_event : JsVal :=
  obj [("event", str "message.ack"); ("payload", hello_event)].

(** A message from a numeric sender that carries a name. *)
Definition named_numeric_sender_event : JsVal :=
  obj [("body", str "hello"); ("from", JNum 4917012345 0);
       ("pushName", str "Bob")].

(** Two events with the same nested payload and different outer fields. *)
Definition wrapped_event : JsVal :=
  obj [("payload", hello_event)].

Definition wrapped_event_with_extras : JsVal :=
  obj [("body", str "ignored"); ("fromMe", JBool true);
       ("payload", hello_event)].

(** A model answer that is no action item, and answers of the completion
    endpoint without usable text. *)
Definition declined_world : World :=
  stub_world (completion (json_lit "{'isActionItem': false, 'summary': 'greeting'}"))
             sink_ok.

Definition no_choices_world : World :=
  stub_world (HttpResponse 200 (obj [("choices", JArr [])])) sink_ok.

(** The same classifier answer with a working and with a failing sink. *)
Definition sink_ok_world : World :=
  stub_world (completion contract_answer) sink_ok.

Definition sink_down_world : World :=
  stub_world (completion contract_answer) sink_down.

(** * Properties *)

(** ** Concrete runs *)

Example isSystemMessage_null :
  isSystemMessage (JStr (lit "NULL")) = Ok true.
Proof. reflexivity. Qed.

Example isSystemMessage_added :
  isSystemMessage (JStr (LRM :: lit "Bob added Carol")) = Ok true.
Proof. reflexivity. Qed.

Example isSystemMessage_invoice :
  isSystemMessage (JStr (lit "Can you send the invoice by Friday?")) = Ok false.
Proof. reflexivity. Qed.

Example parse_object :
  Json.parse (json_lit "{ 'a': [1, -2.5e3, true, null], 'b': {'c': 'x\ny'}, 'a': 'z' }")
  = Some (obj [("a", str "z"); ("b", obj [("c", JStr [120%N; 10%N; 121%N])])]).
Proof. vm_compute. reflexivity. Qed.

Example parse_trailing :
  Json.parse (json_lit "{'a':1} }") = None.
Proof. reflexivity. Qed.

Example contract_run :
  webhook (stub_world (completion contract_answer) sink_ok) contract_event
  = (processed_action contract_classification,
     [CallOpenAI (str "Alice") (str "Please send the contract by Monday, urgent!");
      CallSheets
        (obj [("timestamp", str "2024-01-01T00:00:00.000Z");
              ("source", str "Alice");
              ("message", str "Please send the contract by Monday, urgent!");
              ("responsible", str "Alice");
              ("urgency", str "Urgent");
              ("due", str "Monday");
              ("status", str "Open");
              ("chatId", str "999@c.us")])]).
Proof. vm_compute. reflexivity. Qed.

Example empty_body_run :
  webhook (stub_world (completion contract_answer) sink_ok)
          (obj [("event", str "message"); ("payload", obj [("body", JStr [])])])
  = (skipped "system or empty message", []).
Proof. vm_compute. reflexivity. Qed.

Example message_ack_run :
  webhook (stub_world NetworkError sink_ok)
          (obj [("event", str "message.ack"); ("body", str "hello")])
  = (processed_no_action, [CallOpenAI (str "Unknown") (str "hello")]).
Proof. vm_compute. reflexivity. Qed.

Example session_status_run :
  webhook (stub_world NetworkError sink_ok)
          (obj [("event", str "session.status"); ("body", str "hello")])
  = (skipped "non-message event", []).
Proof. vm_compute. reflexivity. Qed.

(** ** Strings *)

Lemma eqb_refl (s : jsstr) : JsString.eqb s s = true.
Proof.
  induction s as [|c s IH]; simpl; [reflexivity|].
  now rewrite N.eqb_refl, IH.
Qed.

Lemma eqb_eq (a b : jsstr) : JsString.eqb a b = true <-> a = b.
Proof.
  split; [|intros ->; apply eqb_refl].
  revert b; induction a as [|x a IH]; intros [|y b]; simpl; try discriminate; auto.
  rewrite andb_true_iff, N.eqb_eq. intros [-> H]. f_equal. auto.
Qed.

Lemma trimStart_blank (s : jsstr) :
  forallb is_space s = true -> trimStart s = [].
Proof.
  induction s as [|c s IH]; simpl; [reflexivity|].
  rewrite andb_true_iff. intros [-> H]. auto.
Qed.

Lemma trim_blank (s : jsstr) : forallb is_space s = true -> trim s = [].
Proof.
  intros H. unfold trim, trimEnd. now rewrite (trimStart_blank _ H).
Qed.

(** ** Patterns *)

Section Unfolding.

Import RegExp.

Lemma match_here_one (ic ea : bool) (a : atom) (r : list item) (c : N) (s : jsstr) :
  match_here ic ea (One a :: r) (c :: s)
  = if atom_ok ic a c then option_map (cons c) (match_here ic ea r s) else None.
Proof. reflexivity. Qed.

Lemma match_here_star (ic ea : bool) (a : atom) (r : list item) (s : jsstr) :
  match_here ic ea (Star a :: r) s
  = star_loop (atom_ok ic a) (match_here ic ea r) s.
Proof. reflexivity. Qed.

Lemma scan_eq (ic ea : bool) (its : list item) (s : jsstr) :
  scan ic ea its s
  = match match_here ic ea its s with
    | Some m => Some m
    | None => match s with
              | [] => None
              | _ :: s' => scan ic ea its s'
              end
    end.
Proof. destruct s; reflexivity. Qed.

End Unfolding.

Section CaseFolding.

Import RegExp.

Lemma fold_case_cases (c c' : N) :
  fold_case c = fold_case c' ->
  c = c' \/ ((65 <= c <= 122)%N /\ (65 <= c' <= 122)%N).
Proof.
  unfold fold_case.
  destruct (97 <=? c)%N eqn:A, (c <=? 122)%N eqn:B,
           (97 <=? c')%N eqn:A', (c' <=? 122)%N eqn:B'; simpl;
    rewrite ?N.leb_le, ?N.leb_gt in *; lia.
Qed.

Lemma fold_case_idem (c : N) : fold_case (fold_case c) = fold_case c.
Proof.
  unfold fold_case.
  destruct (97 <=? c)%N eqn:A, (c <=? 122)%N eqn:B; simpl; rewrite ?A, ?B; simpl; auto.
  rewrite N.leb_le in *.
  destruct (97 <=? c - 32)%N eqn:C; simpl; auto.
  rewrite N.leb_le in C.
  destruct (c - 32 <=? 122)%N eqn:D; auto. lia.
Qed.

Lemma is_line_terminator_letter (c : N) :
  (65 <= c <= 122)%N -> is_line_terminator c = false.
Proof.
  intros H. unfold is_line_terminator.
  repeat (rewrite orb_false_iff; split); apply N.eqb_neq; lia.
Qed.

Lemma is_space_letter (c : N) : (65 <= c <= 122)%N -> is_space c = false.
Proof.
  intros H. unfold is_space. rewrite (is_line_terminator_letter _ H).
  repeat (rewrite orb_false_iff; split); try (apply N.eqb_neq; lia); try reflexivity.
  rewrite andb_false_iff. left. apply N.leb_gt. lia.
Qed.

Lemma atom_ok_fold (ic : bool) (a : atom) (c c' : N) :
  (match a with Chr _ => ic | _ => true end) = true ->
  fold_case c = fold_case c' ->
  atom_ok ic a c = atom_ok ic a c'.
Proof.
  intros Hb Hf. destruct a; simpl in *.
  - subst ic. now rewrite Hf.
  - destruct (fold_case_cases _ _ Hf) as [->|[H H']]; [reflexivity|].
    now rewrite !is_line_terminator_letter by assumption.
  - destruct (fold_case_cases _ _ Hf) as [->|[H H']]; [reflexivity|].
    now rewrite !is_space_letter by assumption.
  - reflexivity.
Qed.

(** A match survives a change of ASCII case in the subject. *)
Lemma match_here_fold (ic ea : bool) (its : list item) :
  forallb (case_blind ic) its = true ->
  forall s s' m, same_fold s s' ->
    match_here ic ea its s = Some m ->
    exists m', match_here ic ea its s' = Some m'.
Proof.
  unfold same_fold.
  induction its as [|[a|a] r IH]; intros Hb; simpl in Hb.
  - intros s s' m Hs. simpl. destruct ea; [|eauto].
    destruct s, s'; simpl in Hs; try discriminate; eauto.
  - apply andb_true_iff in Hb as [Ha Hr].
    intros [|c s] [|c' s'] m Hs; simpl in Hs; try discriminate; simpl.
    injection Hs as Hc Hs.
    rewrite <- (atom_ok_fold ic a c c') by (auto; destruct a; auto).
    destruct (atom_ok ic a c); [|discriminate].
    destruct (match_here ic ea r s) as [m0|] eqn:E; [|discriminate].
    destruct (IH Hr _ _ _ Hs E) as [m' ->]. simpl. eauto.
  - apply andb_true_iff in Hb as [Ha Hr].
    assert (Ha' : (match a with Chr _ => ic | _ => true end) = true)
      by (destruct a; auto).
    intros s. simpl.
    induction s as [|c s IHs]; intros [|c' s'] m Hs; simpl in Hs;
      try discriminate; simpl.
    + intros E. exact (IH Hr [] [] m eq_refl E).
    + injection Hs as Hc Hs.
      rewrite <- (atom_ok_fold ic a c c') by auto.
      destruct (atom_ok ic a c).
      * destruct (star_loop _ _ s') as [m1|] eqn:E1; [eauto|].
        destruct (star_loop _ _ s) as [m2|] eqn:E2.
        { destruct (IHs s' m2 Hs eq_refl) as [m' E']. congruence. }
        intros E. apply (IH Hr (c :: s) (c' :: s') m); simpl; congruence.
      * intros E. apply (IH Hr (c :: s) (c' :: s') m); simpl; congruence.
Qed.

Lemma test_fold (re : t) (s s' : jsstr) :
  startAnchor re = true ->
  forallb (case_blind (ignoreCase re)) (items re) = true ->
  same_fold s s' -> test re s = true -> test re s' = true.
Proof.
  unfold test, exec. intros -> Hb Hs.
  destruct (match_here _ _ _ s) as [m|] eqn:E; [|discriminate].
  destruct (match_here_fold _ (endAnchor re) _ Hb _ _ _ Hs E) as [m' ->]. reflexivity.
Qed.

End CaseFolding.

(** ** Completeness of the matcher on the shapes of the patterns *)

Section Matching.

Import RegExp.

Variables ic ea : bool.

Lemma chars_succeed (l : jsstr) (tail : list item) (s : jsstr) :
  succeeds ic ea tail s ->
  succeeds ic ea (map (fun c => One (Chr c)) l ++ tail) (l ++ s).
Proof.
  intros H. induction l as [|c l [m IH]]; [exact H|].
  unfold succeeds. cbn [map app]. rewrite match_here_one.
  assert (E : atom_ok ic (Chr c) c = true)
    by (simpl; destruct ic; apply N.eqb_refl).
  rewrite E, IH. simpl. eauto.
Qed.

Lemma star_loop_succeeds (ok : N -> bool) (k : jsstr -> option jsstr)
  (a b : jsstr) :
  forallb ok a = true ->
  (exists m, k b = Some m) ->
  exists m, star_loop ok k (a ++ b) = Some m.
Proof.
  intros Ha Hb. induction a as [|c a IH]; simpl in *.
  - destruct b as [|c b]; simpl; [exact Hb|].
    destruct (ok c); [|exact Hb].
    destruct (star_loop ok k b); eauto.
  - apply andb_true_iff in Ha as [-> Ha].
    destruct (IH Ha) as [m ->]. eauto.
Qed.

Lemma star_succeeds (a : atom) (tail : list item) (s rest : jsstr) :
  forallb (atom_ok ic a) s = true ->
  succeeds ic ea tail rest ->
  succeeds ic ea (Star a :: tail) (s ++ rest).
Proof.
  intros Hs Ht. unfold succeeds. rewrite match_here_star.
  now apply star_loop_succeeds.
Qed.

Lemma open_end_succeeds (s : jsstr) : ea = false -> succeeds ic ea [] s.
Proof. intros H. exists []. simpl. now rewrite H. Qed.

Lemma closed_end_succeeds : succeeds ic ea [] [].
Proof. exists []. simpl. now destruct ea. Qed.

Lemma dot_star_end_succeeds (s : jsstr) :
  one_line s = true -> succeeds ic ea [Star Dot] s.
Proof.
  intros H. rewrite <- (app_nil_r s).
  apply star_succeeds; [exact H|apply closed_end_succeeds].
Qed.

(** [^\u200e.*kw] followed by [tail], on a mark, a line and [kw]. *)
Lemma notice_succeeds (kw : string) (tail : list item) (who rest : jsstr) :
  one_line who = true ->
  succeeds ic ea tail rest ->
  succeeds ic ea ([One (Chr LRM); Star Dot] ++ chars kw ++ tail)
           (LRM :: who ++ lit kw ++ rest).
Proof.
  intros Hw Ht.
  assert (H : succeeds ic ea (Star Dot :: chars kw ++ tail) (who ++ lit kw ++ rest)).
  { apply star_succeeds; [exact Hw|]. now apply chars_succeed. }
  destruct H as [m H]. unfold succeeds. cbn [app]. rewrite match_here_one, H.
  assert (E : atom_ok ic (Chr LRM) LRM = true) by (now destruct ic).
  rewrite E. simpl. eauto.
Qed.

Lemma notice_end_succeeds (kw : string) (who rest : jsstr) :
  one_line who = true ->
  succeeds ic ea [] rest ->
  succeeds ic ea ([One (Chr LRM); Star Dot] ++ chars kw)
           (LRM :: who ++ lit kw ++ rest).
Proof.
  intros Hw Ht. rewrite <- (app_nil_r (chars kw)). now apply notice_succeeds.
Qed.

Lemma chars_end_succeed (kw : string) (rest : jsstr) :
  succeeds ic ea [] rest -> succeeds ic ea (chars kw) (lit kw ++ rest).
Proof.
  intros Ht. rewrite <- (app_nil_r (chars kw)). now apply chars_succeed.
Qed.

End Matching.

Lemma succeeds_test (re : RegExp.t) (s : jsstr) :
  RegExp.startAnchor re = true ->
  succeeds (RegExp.ignoreCase re) (RegExp.endAnchor re) (RegExp.items re) s ->
  RegExp.test re s = true.
Proof.
  unfold RegExp.test, RegExp.exec. intros -> [m ->]. reflexivity.
Qed.

(** Every body that the specification lists is matched by one of the
    patterns. *)
Lemma system_notice_matched (s : jsstr) :
  system_notice s ->
  exists pattern,
    In pattern SYSTEM_MESSAGE_PATTERNS /\ RegExp.test pattern s = true.
Proof.
  pose (default := RegExp.mk true [] true true).
  pose (pick := fun n => nth n SYSTEM_MESSAGE_PATTERNS default).
  assert (Hpick : forall n, (n < 12)%nat -> In (pick n) SYSTEM_MESSAGE_PATTERNS).
  { intros n Hn. apply nth_In. exact Hn. }
  intros [kw who rest Hkw Hw Hr | kw who Hkw Hw | who rest Hw | kw rest Hkw | ].
  - destruct Hkw as [<-|[<-|[<-|[]]]];
      [exists (pick 0%nat) | exists (pick 2%nat) | exists (pick 3%nat)];
      (split; [apply Hpick; lia|]);
      (apply succeeds_test; [reflexivity|]);
      (apply (notice_succeeds true true); auto using dot_star_end_succeeds).
  - rewrite <- (app_nil_r (lit kw)).
    destruct Hkw as [<-|[<-|[]]];
      [exists (pick 1%nat) | exists (pick 4%nat)];
      (split; [apply Hpick; lia|]);
      (apply succeeds_test; [reflexivity|]);
      (apply (notice_end_succeeds true true); auto using closed_end_succeeds).
  - exists (pick 5%nat). split; [apply Hpick; lia|].
    apply succeeds_test; [reflexivity|].
    apply (notice_end_succeeds true false); auto using open_end_succeeds.
  - destruct Hkw as [<-|[<-|[<-|[<-|[]]]]];
      [exists (pick 6%nat) | exists (pick 7%nat) | exists (pick 8%nat)
       | exists (pick 9%nat)];
      (split; [apply Hpick; lia|]);
      (apply succeeds_test; [reflexivity|]);
      apply (chars_end_succeed true false); now apply open_end_succeeds.
  - exists (pick 10%nat). split; [apply Hpick; simpl; lia|]. reflexivity.
Qed.

(** ** The message filter *)

Lemma patterns_anchored_and_case_blind (pattern : RegExp.t) :
  In pattern SYSTEM_MESSAGE_PATTERNS ->
  RegExp.startAnchor pattern = true /\
  forallb (case_blind (RegExp.ignoreCase pattern)) (RegExp.items pattern) = true.
Proof.
  unfold SYSTEM_MESSAGE_PATTERNS. simpl.
  intros H.
  repeat (destruct H as [<-|H]; [split; reflexivity|]).
  destruct H.
Qed.

Lemma isSystemMessage_some (s : jsstr) (pattern : RegExp.t) :
  In pattern SYSTEM_MESSAGE_PATTERNS ->
  RegExp.test pattern s = true ->
  isSystemMessage (JStr s) = Ok true.
Proof.
  intros Hin Ht. unfold isSystemMessage.
  destruct (negb (truthy (JStr s))); [reflexivity|].
  cbn [call_trim bind res_Monad].
  destruct (JsString.eqb (trim s) []); [reflexivity|].
  f_equal. apply existsb_exists. exists pattern. split; assumption.
Qed.

(** C3: a body that is empty or consists of whitespace only is a system
    message. *)
Theorem isSystemMessage_blank (s : jsstr) :
  forallb is_space s = true -> isSystemMessage (JStr s) = Ok true.
Proof.
  intros H. unfold isSystemMessage.
  destruct (negb (truthy (JStr s))); [reflexivity|].
  cbn [call_trim bind res_Monad].
  now rewrite (trim_blank _ H).
Qed.

Lemma isSystemMessage_blank_witness :
  forallb is_space (lit "  " ++ [9; 10; 160; 8195; 12288]%N) = true /\
  isSystemMessage (JStr (lit "  " ++ [9; 10; 160; 8195; 12288]%N)) = Ok true.
Proof.
  split; [reflexivity|].
  apply isSystemMessage_blank. reflexivity.
Defined.

(** C4: a body of one of the listed kinds (a group-membership notice behind
    a left-to-right mark, the encryption banner, a waiting or deleted
    placeholder, the literal "null"), in any ASCII case, is a system message,
    and so is every body that one of the fixed patterns matches; the ordinary
    sentence "Can you send the invoice by Friday?" is not. *)
Theorem isSystemMessage_patterns :
  (forall s s',
      system_notice s -> same_fold s s' ->
      isSystemMessage (JStr s') = Ok true) /\
  (forall pattern s,
      In pattern SYSTEM_MESSAGE_PATTERNS ->
      RegExp.test pattern s = true ->
      isSystemMessage (JStr s) = Ok true) /\
  isSystemMessage (JStr (lit "Can you send the invoice by Friday?")) = Ok false.
Proof.
  split; [|split; [|reflexivity]].
  - intros s s' Hs Hf.
    destruct (system_notice_matched s Hs) as (pattern & Hin & Ht).
    destruct (patterns_anchored_and_case_blind _ Hin) as [Ha Hb].
    apply isSystemMessage_some with pattern; [assumption|].
    exact (test_fold pattern s s' Ha Hb Hf Ht).
  - intros pattern s. apply isSystemMessage_some.
Qed.

Lemma isSystemMessage_patterns_witness :
  isSystemMessage (JStr (LRM :: lit "ALICE ADDED BOB")) = Ok true.
Proof.
  refine (proj1 isSystemMessage_patterns
            (LRM :: lit "Alice " ++ lit "added" ++ lit " Bob")
            (LRM :: lit "ALICE ADDED BOB") _ _).
  - apply (group_change_notice "added"); [simpl; auto|reflexivity|reflexivity].
  - reflexivity.
Defined.

(** ** The classifier and the sink *)

Lemma classifyWithGPT_eq (w : World) (message sourceName : JsVal) (tr : list call) :
  classifyWithGPT w message sourceName tr
  = if prompt_ok message sourceName
    then (Ok (classification w message sourceName),
          tr ++ [CallOpenAI sourceName message])
    else (Throw TypeError, tr).
Proof.
  unfold classifyWithGPT, promptOf, ToString, prompt_ok, lift.
  cbn [bind ret M_Monad res_Monad].
  destruct (stringifiable sourceName); [|reflexivity].
  destruct (stringifiable message); [|reflexivity].
  unfold try_catch, classification, axios_post, lift.
  cbn [bind ret M_Monad res_Monad andb].
  destruct (accepted (openai w sourceName message)) as [data|]; [|reflexivity].
  destruct (contentOf data) as [content|e]; [|reflexivity].
  destruct (parseContent w content) as [v|e]; reflexivity.
Qed.

Lemma classifyWithGPT_run (w : World) (message sourceName : JsVal) (tr : list call) :
  prompt_ok message sourceName = true ->
  classifyWithGPT w message sourceName tr
  = (Ok (classification w message sourceName),
     tr ++ [CallOpenAI sourceName message]).
Proof. intros H. now rewrite classifyWithGPT_eq, H. Qed.

Lemma logLineOf_prompt (sn body : JsVal) :
  logLineOf sn body = Ok tt -> prompt_ok body sn = true.
Proof.
  unfold logLineOf, ToString, prompt_ok.
  destruct (stringifiable sn); [|discriminate].
  destruct body; try discriminate. reflexivity.
Qed.

Lemma writeToGoogleSheets_run (w : World) (data : JsVal) (tr : list call) :
  writeToGoogleSheets w data tr
  = (Ok (is_2xx (sheets w data)), tr ++ [CallSheets data]).
Proof.
  unfold writeToGoogleSheets, try_catch, is_2xx, axios_post.
  cbn [bind ret M_Monad].
  destruct (accepted (sheets w data)); reflexivity.
Qed.

Lemma classification_fails (w : World) (message sourceName : JsVal) :
  classifier_fails w message sourceName ->
  classification w message sourceName = NOT_ACTION_ITEM.
Proof.
  unfold classification.
  intros [E | status data E Hs | data content E Ec Em | data content j E Ec Em Ej].
  - now rewrite E.
  - rewrite E. simpl.
    destruct (200 <=? status)%Z eqn:A; [|reflexivity].
    destruct (status <? 300)%Z eqn:B; [|reflexivity].
    apply Z.leb_le in A. apply Z.ltb_lt in B. lia.
  - rewrite E, Ec. cbn [bind res_Monad]. unfold parseContent. now rewrite Em.
  - rewrite E, Ec. cbn [bind res_Monad]. unfold parseContent. now rewrite Em, Ej.
Qed.

(** ** The handler *)

Lemma webhook_reaches (w : World) (payload md body chatId sn : JsVal) :
  reaches_classifier payload md body chatId sn ->
  webhook w payload
  = after_classification w sn body chatId (classification w body sn).
Proof.
  intros (event & fromMe & He & Hi & Hm & Hb & Hf & Hft & Hs & Hc & Hn & Hl).
  unfold webhook, webhook_try, after_classification, lift.
  cbn [bind ret M_Monad].
  rewrite He, Hi. cbn [negb]. rewrite Hm, Hb, Hf, Hft, Hs, Hc, Hn, Hl.
  rewrite (classifyWithGPT_run _ _ _ _ (logLineOf_prompt _ _ Hl)). cbn [app].
  destruct (get (classification w body sn) "isActionItem") as [a|e]; [|reflexivity].
  destruct (truthy a); [|reflexivity].
  destruct (sheetDataOf w sn body _ chatId) as [sd|e]; [|reflexivity].
  rewrite writeToGoogleSheets_run. reflexivity.
Qed.

Ltac run_handler :=
  unfold webhook, webhook_try, lift; cbn [bind ret M_Monad].

(* The handler answered before any outbound call was made. *)
Ltac stops_early :=
  left; run_handler;
  repeat match goal with H : _ = _ |- _ => rewrite H end;
  reflexivity.

Lemma webhook_cases (w : World) (payload : JsVal) :
  snd (webhook w payload) = [] \/
  exists md body chatId sn, reaches_classifier payload md body chatId sn.
Proof.
  destruct (eventOf payload) as [event|e] eqn:He; [|stops_early].
  destruct (call_includes event (lit "message")) as [[|]|e] eqn:Hi;
    try stops_early.
  destruct (messageDataOf payload) as [md|e] eqn:Hm; [|stops_early].
  destruct (bodyOf md) as [body|e] eqn:Hb; [|stops_early].
  destruct (fromMeOf md) as [fromMe|e] eqn:Hf; [|stops_early].
  destruct (truthy fromMe) eqn:Hft; [stops_early|].
  destruct (isSystemMessage body) as [[|]|e] eqn:Hs; try stops_early.
  destruct (chatIdOf md) as [chatId|e] eqn:Hc; [|stops_early].
  destruct (sourceNameOf md chatId) as [sn|e] eqn:Hn; [|stops_early].
  destruct (logLineOf sn body) as [[]|e] eqn:Hl; [|stops_early].
  right. exists md, body, chatId, sn, event, fromMe. repeat split; assumption.
Qed.

Lemma webhook_called (w : World) (payload sn message : JsVal) :
  In (CallOpenAI sn message) (snd (webhook w payload)) ->
  exists md chatId, reaches_classifier payload md message chatId sn.
Proof.
  intros Hin.
  destruct (webhook_cases w payload) as [E | (md & body & chatId & sn' & R)].
  - rewrite E in Hin. destruct Hin.
  - rewrite (webhook_reaches w _ _ _ _ _ R) in Hin.
    assert (E : CallOpenAI sn' body = CallOpenAI sn message).
    { unfold after_classification in Hin.
      destruct (get _ "isActionItem") as [a|e]; simpl in Hin.
      - destruct (truthy a); simpl in Hin.
        + destruct (sheetDataOf _ _ _ _ _); simpl in Hin;
            intuition discriminate.
        + intuition.
      - intuition. }
    injection E as -> ->. eauto.
Qed.

Lemma webhook_not_actionable (w : World) (payload md body chatId sn : JsVal) :
  reaches_classifier payload md body chatId sn ->
  classification w body sn = NOT_ACTION_ITEM ->
  webhook w payload = (processed_no_action, [CallOpenAI sn body]).
Proof.
  intros R E. rewrite (webhook_reaches w _ _ _ _ _ R), E. reflexivity.
Qed.

(** C1: once its prompt is built, [classifyWithGPT] always returns a value,
    after exactly one request to the model (and it throws, without a
    request, only when [sourceName] or [message] cannot be converted to a
    string for the prompt).  On a transport error, a response outside 2xx,
    an answer without a JSON substring or one that does not parse, the value
    is [{isActionItem: false}].  Where the handler gets to its call of the
    classifier the prompt can be built, so the call returns a value and
    never an error; when the classification has failed in one of these ways
    the request is answered 200
    [{status: "processed", isActionItem: false}] without writing to the
    sink. *)
Theorem classifyWithGPT_never_throws (w : World) (message sourceName : JsVal) :
  (forall tr, exists v,
      classifyWithGPT w message sourceName tr
      = if prompt_ok message sourceName
        then (Ok v, tr ++ [CallOpenAI sourceName message])
        else (Throw TypeError, tr)) /\
  (classifier_fails w message sourceName ->
   forall tr,
     classifyWithGPT w message sourceName tr
     = if prompt_ok message sourceName
       then (Ok NOT_ACTION_ITEM, tr ++ [CallOpenAI sourceName message])
       else (Throw TypeError, tr)) /\
  (forall payload md chatId,
      reaches_classifier payload md message chatId sourceName ->
      (exists v,
          classifyWithGPT w message sourceName []
          = (Ok v, [CallOpenAI sourceName message])) /\
      (classifier_fails w message sourceName ->
       webhook w payload
       = (processed_no_action, [CallOpenAI sourceName message]))) /\
  (forall payload,
      In (CallOpenAI sourceName message) (snd (webhook w payload)) ->
      classifier_fails w message sourceName ->
      webhook w payload
      = (processed_no_action, [CallOpenAI sourceName message])).
Proof.
  split; [|split; [|split]].
  - intros tr. eexists. apply classifyWithGPT_eq.
  - intros F tr. rewrite classifyWithGPT_eq.
    now rewrite (classification_fails _ _ _ F).
  - intros payload md chatId R. split.
    + pose proof R as (event & fromMe & _ & _ & _ & _ & _ & _ & _ & _ & _ & Hl).
      eexists. apply (classifyWithGPT_run w _ _ [] (logLineOf_prompt _ _ Hl)).
    + intros F.
      exact (webhook_not_actionable w _ _ _ _ _ R (classification_fails _ _ _ F)).
  - intros payload Hin F.
    destruct (webhook_called _ _ _ _ Hin) as (md & chatId & R).
    exact (webhook_not_actionable w _ _ _ _ _ R (classification_fails _ _ _ F)).
Qed.

Lemma hello_event_reaches :
  reaches_classifier hello_event hello_event (str "hello")
    (str "1234@g.us") (str "1234").
Proof.
  exists (str "message"), (JBool false). repeat split; reflexivity.
Qed.

Lemma classifyWithGPT_never_throws_witness :
  classifier_fails prose_world (str "hello") (str "1234") /\
  webhook prose_world hello_event
  = (processed_no_action, [CallOpenAI (str "1234") (str "hello")]).
Proof.
  assert (F : classifier_fails prose_world (str "hello") (str "1234")).
  { eapply no_json_substring; reflexivity. }
  split; [exact F|].
  exact (proj2 (proj1 (proj2 (proj2 (classifyWithGPT_never_throws
                                       prose_world (str "hello") (str "1234"))))
                  hello_event hello_event (str "1234@g.us")
                  hello_event_reaches) F).
Defined.

(** ** Extraction of the JSON text *)

Section Extraction.

Import RegExp.

Let open_brace : N := 123.
Let close_brace : N := 125.
Let closing : jsstr -> option jsstr :=
  match_here false false [One (Chr close_brace)].

Lemma star_without_close (post : jsstr) :
  ~ In close_brace post ->
  star_loop (atom_ok false AnyUnit) closing post = None.
Proof.
  induction post as [|c post IH]; intros H; simpl; [reflexivity|].
  rewrite IH by (intros F; apply H; now right).
  unfold closing. cbn [match_here atom_ok].
  destruct (N.eqb_spec close_brace c) as [E|E]; [|reflexivity].
  exfalso. apply H. now left.
Qed.

(** The greedy star stops at the last closing brace. *)
Lemma star_to_last_close (mid post : jsstr) :
  ~ In close_brace post ->
  star_loop (atom_ok false AnyUnit) closing (mid ++ close_brace :: post)
  = Some (mid ++ [close_brace]).
Proof.
  intros H. induction mid as [|c mid IH]; simpl.
  - rewrite (star_without_close post H).
    unfold closing. cbn [match_here atom_ok]. now rewrite N.eqb_refl.
  - now rewrite IH.
Qed.

(** The scan starts at the first opening brace. *)
Lemma scan_from_first_open (its : list item) (pre rest : jsstr) :
  ~ In open_brace pre ->
  scan false false (One (Chr open_brace) :: its) (pre ++ rest)
  = scan false false (One (Chr open_brace) :: its) rest.
Proof.
  induction pre as [|c pre IH]; intros H; [reflexivity|].
  cbn [app]. rewrite scan_eq, match_here_one. cbn [atom_ok].
  destruct (N.eqb_spec open_brace c) as [E|E].
  - exfalso. apply H. now left.
  - apply IH. intros F. apply H. now right.
Qed.

Lemma exec_outer_braces (pre mid post : jsstr) :
  ~ In open_brace pre -> ~ In close_brace post ->
  exec JSON_OBJECT_RE (pre ++ open_brace :: mid ++ close_brace :: post)
  = Some (open_brace :: mid ++ [close_brace]).
Proof.
  intros Hpre Hpost. unfold exec, JSON_OBJECT_RE.
  cbn [startAnchor ignoreCase endAnchor items].
  rewrite (scan_from_first_open _ pre _ Hpre).
  rewrite scan_eq, match_here_one, match_here_star.
  cbn [atom_ok]. rewrite N.eqb_refl.
  change (match_here false false [One (Chr 125)]) with closing.
  rewrite (star_to_last_close mid post Hpost). reflexivity.
Qed.

(** Without a closing brace nothing matches, and so without an opening
    one. *)
Lemma exec_without_close (content : jsstr) :
  ~ In close_brace content -> exec JSON_OBJECT_RE content = None.
Proof.
  unfold exec, JSON_OBJECT_RE. cbn [startAnchor ignoreCase endAnchor items].
  induction content as [|c content IH]; intros H; [reflexivity|].
  assert (Hc : ~ In close_brace content) by (intros F; apply H; now right).
  rewrite scan_eq, match_here_one, match_here_star.
  change (match_here false false [One (Chr 125)]) with closing.
  rewrite (star_without_close content Hc), (IH Hc).
  now destruct (atom_ok false (Chr 123) c).
Qed.

Lemma exec_without_open (content : jsstr) :
  ~ In open_brace content -> exec JSON_OBJECT_RE content = None.
Proof.
  intros H. unfold exec, JSON_OBJECT_RE.
  cbn [startAnchor ignoreCase endAnchor items].
  rewrite <- (app_nil_r content), (scan_from_first_open _ content [] H).
  reflexivity.
Qed.

Lemma trimStart_In (c : N) (s : jsstr) : In c (trimStart s) -> In c s.
Proof.
  induction s as [|x s IH]; simpl; [auto|].
  destruct (is_space x); simpl; auto.
Qed.

Lemma trimEnd_In (c : N) (s : jsstr) : In c (trimEnd s) -> In c s.
Proof.
  unfold trimEnd. intros H.
  apply in_rev in H. apply trimStart_In in H. now apply in_rev.
Qed.

Lemma trimStart_app (pre rest : jsstr) (c : N) :
  is_space c = false ->
  trimStart (pre ++ c :: rest) = trimStart pre ++ c :: rest.
Proof.
  intros Hc. induction pre as [|x pre IH]; simpl.
  - now rewrite Hc.
  - destruct (is_space x); auto.
Qed.

Lemma trimEnd_app (front post : jsstr) (c : N) :
  is_space c = false ->
  trimEnd (front ++ c :: post) = front ++ c :: trimEnd post.
Proof.
  intros Hc. unfold trimEnd.
  rewrite rev_app_distr. simpl. rewrite <- app_assoc. simpl.
  rewrite (trimStart_app _ _ _ Hc).
  rewrite rev_app_distr. simpl. rewrite rev_involutive, <- app_assoc.
  reflexivity.
Qed.

(** Trimming only touches the prose around a braced text. *)
Lemma trim_around_braces (pre mid post : jsstr) :
  trim (pre ++ open_brace :: mid ++ close_brace :: post)
  = trimStart pre ++ open_brace :: mid ++ close_brace :: trimEnd post.
Proof.
  unfold trim. rewrite trimStart_app by reflexivity.
  change (trimStart pre ++ open_brace :: mid ++ close_brace :: post)
    with (trimStart pre ++ (open_brace :: mid) ++ close_brace :: post).
  rewrite app_assoc, trimEnd_app by reflexivity.
  now rewrite <- app_assoc.
Qed.

Lemma exec_trim_outer_braces (pre mid post : jsstr) :
  ~ In open_brace pre -> ~ In close_brace post ->
  exec JSON_OBJECT_RE (trim (pre ++ open_brace :: mid ++ close_brace :: post))
  = Some (open_brace :: mid ++ [close_brace]).
Proof.
  intros Hpre Hpost. rewrite trim_around_braces.
  apply exec_outer_braces.
  - intros F. apply Hpre. now apply trimStart_In.
  - intros F. apply Hpost. now apply trimEnd_In.
Qed.

End Extraction.

Lemma has_false (c : N) (s : jsstr) : has c s = false -> ~ In c s.
Proof.
  unfold has. intros H Hin.
  assert (E : existsb (N.eqb c) s = true).
  { apply existsb_exists. exists c. split; [assumption|apply N.eqb_refl]. }
  congruence.
Qed.

(** C2 (amended): the classifier parses the text from the first opening
    brace to the last closing brace of the model's trimmed output.  When the
    output is one braced text with prose around it, no opening brace in the
    prose before and no closing brace in the prose after, that text is what
    is parsed and its value is the classification.  (The model is asked, and
    has an output, once the prompt is built; the function throws before any
    request when that is not possible, which a call from the handler never
    meets.) *)
Theorem classify_parses_outer_braces
  (w : World) (message sourceName data : JsVal) (pre mid post : jsstr) :
  accepted (openai w sourceName message) = Some data ->
  rawContentOf data = Ok (JStr (pre ++ 123%N :: mid ++ 125%N :: post)) ->
  has 123 pre = false ->
  has 125 post = false ->
  RegExp.exec JSON_OBJECT_RE (trim (pre ++ 123%N :: mid ++ 125%N :: post))
  = Some (123%N :: mid ++ [125%N]) /\
  forall tr,
    classifyWithGPT w message sourceName tr
    = if prompt_ok message sourceName
      then (Ok (match JSON_parse w (123%N :: mid ++ [125%N]) with
                | Some v => v
                | None => NOT_ACTION_ITEM
                end),
            tr ++ [CallOpenAI sourceName message])
      else (Throw TypeError, tr).
Proof.
  intros Ha Hc Hpre Hpost.
  pose proof (exec_trim_outer_braces pre mid post
                (has_false _ _ Hpre) (has_false _ _ Hpost)) as E.
  split; [exact E|].
  intros tr. rewrite classifyWithGPT_eq.
  destruct (prompt_ok message sourceName); [|reflexivity].
  f_equal. f_equal.
  unfold classification. rewrite Ha. unfold contentOf. rewrite Hc.
  cbn [bind res_Monad call_trim]. unfold parseContent. rewrite E.
  destruct (JSON_parse w _); reflexivity.
Qed.

Lemma classify_parses_outer_braces_witness :
  classifyWithGPT fenced_world (str "hello") (str "1234") []
  = (Ok contract_classification, [CallOpenAI (str "1234") (str "hello")]).
Proof.
  refine (proj2 (classify_parses_outer_braces
            fenced_world (str "hello") (str "1234") _
            (lit "Sure: ```json ") contract_members (lit " ``` Done.")
            _ _ _ _) []); reflexivity.
Defined.

(** C2 as stated fails: in this answer the only JSON object is
    [{"isActionItem": true}], yet the text handed to the parser runs on to
    the brace of the closing smiley, does not parse, and the message is
    classified as not actionable. *)
Lemma first_balanced_object_counterexample :
  Json.parse smiley_object = Some (obj [("isActionItem", JBool true)]) /\
  RegExp.exec JSON_OBJECT_RE (trim smiley_answer)
  = Some (smiley_object ++ lit " :-}") /\
  Json.parse (smiley_object ++ lit " :-}") = None /\
  classifyWithGPT smiley_world (str "hello") (str "1234") []
  = (Ok NOT_ACTION_ITEM, [CallOpenAI (str "1234") (str "hello")]).
Proof. vm_compute. repeat split; reflexivity. Qed.

(** ** The normalizer *)

Lemma get_field (v : JsVal) (k : string) :
  nullish v = false -> get v k = Ok (field v k).
Proof. destruct v; simpl; intros H; try discriminate; reflexivity. Qed.

Lemma get_opt_field (v : JsVal) (k : string) : get_opt v k = Ok (field v k).
Proof. destruct v; reflexivity. Qed.

Lemma truthy_not_nullish (v : JsVal) : truthy v = true -> nullish v = false.
Proof. destruct v; simpl; intros H; try discriminate; reflexivity. Qed.

Lemma or_else_ok (v : JsVal) (rest : res JsVal) :
  (Ok v <||> rest) = if truthy v then Ok v else rest.
Proof. reflexivity. Qed.

Lemma or_else_inv (a b : res JsVal) (v : JsVal) :
  (a <||> b) = Ok v -> (a = Ok v /\ truthy v = true) \/ b = Ok v.
Proof.
  unfold or_else. destruct a as [x|e]; simpl; [|discriminate].
  destruct (truthy x) eqn:E; [|auto].
  intros H. injection H as <-. auto.
Qed.

Lemma sourceNameOf_truthy (md chatId sn : JsVal) :
  sourceNameOf md chatId = Ok sn -> truthy sn = true.
Proof.
  unfold sourceNameOf. intros H.
  repeat (apply or_else_inv in H; destruct H as [[_ H]|H]; [exact H|]).
  injection H as <-. reflexivity.
Qed.

Lemma chatIdOf_defined (md chatId : JsVal) :
  chatIdOf md = Ok chatId -> chatId <> JUndefined.
Proof.
  unfold chatIdOf. intros H F. subst chatId.
  repeat (apply or_else_inv in H; destruct H as [[_ H]|H]; [discriminate|]).
  discriminate.
Qed.

Lemma logLineOf_inv (sn body : JsVal) :
  logLineOf sn body = Ok tt ->
  stringifiable sn = true /\ exists s, body = JStr s.
Proof.
  unfold logLineOf, ToString.
  destruct (stringifiable sn); [|discriminate].
  destruct body; try discriminate. eauto.
Qed.

Lemma logLineOf_ok (sn : JsVal) (s : jsstr) :
  stringifiable sn = true -> logLineOf sn (JStr s) = Ok tt.
Proof. unfold logLineOf, ToString. now intros ->. Qed.

Lemma eventOf_ok (payload : JsVal) :
  nullish payload = false ->
  eventOf payload = Ok (first_truthy [field payload "event"] (str "message")).
Proof.
  intros H. unfold eventOf. rewrite (get_field _ _ H), or_else_ok. simpl.
  destruct (truthy _); reflexivity.
Qed.

Lemma eventOf_not_nullish (payload event : JsVal) :
  eventOf payload = Ok event -> nullish payload = false.
Proof. destruct payload; simpl; intros H; try discriminate; reflexivity. Qed.

Lemma messageDataOf_ok (payload : JsVal) :
  nullish payload = false ->
  messageDataOf payload = Ok (first_truthy [field payload "payload"] payload) /\
  nullish (first_truthy [field payload "payload"] payload) = false.
Proof.
  intros H. unfold messageDataOf. rewrite (get_field _ _ H), or_else_ok. simpl.
  destruct (truthy (field payload "payload")) eqn:E.
  - split; [reflexivity|]. now apply truthy_not_nullish.
  - split; [reflexivity|assumption].
Qed.

Lemma bodyOf_ok (md : JsVal) :
  nullish md = false ->
  bodyOf md
  = Ok (first_truthy [field md "body"; field md "text"; field md "caption"]
          (JStr [])).
Proof.
  intros H. unfold bodyOf. rewrite !(get_field _ _ H), !or_else_ok. simpl.
  repeat (destruct (truthy _); [reflexivity|]). reflexivity.
Qed.

Lemma fromMeOf_ok (md : JsVal) :
  nullish md = false ->
  fromMeOf md
  = Ok (first_truthy [field md "fromMe"; field md "from_me"] (JBool false)).
Proof.
  intros H. unfold fromMeOf. rewrite !(get_field _ _ H), !or_else_ok. simpl.
  repeat (destruct (truthy _); [reflexivity|]). reflexivity.
Qed.

Lemma chatIdOf_ok (md : JsVal) :
  nullish md = false ->
  chatIdOf md
  = Ok (first_truthy [field md "chatId"; field md "from";
                      field (field md "chat") "id"] (JStr [])).
Proof.
  intros H. unfold chatIdOf. rewrite !(get_field _ _ H).
  cbn [bind res_Monad]. rewrite get_opt_field, !or_else_ok. simpl.
  repeat (destruct (truthy _); [reflexivity|]). reflexivity.
Qed.

(** C5 (amended): for an event that passes the event-type check, the
    normalized [fromMe] is the first truthy of the message data's [fromMe]
    and [from_me], else false; when it is truthy the handler answers
    [{status: "skipped", reason: "outgoing message"}] and calls neither the
    classifier nor the sink. *)
Theorem outgoing_message_skipped (w : World) (payload event : JsVal) :
  eventOf payload = Ok event ->
  call_includes event (lit "message") = Ok true ->
  exists md,
    messageDataOf payload = Ok md /\
    fromMeOf md
    = Ok (first_truthy [field md "fromMe"; field md "from_me"] (JBool false)) /\
    (truthy (first_truthy [field md "fromMe"; field md "from_me"] (JBool false))
     = true ->
     webhook w payload = (skipped "outgoing message", [])).
Proof.
  intros He Hi.
  pose proof (eventOf_not_nullish _ _ He) as Hp.
  destruct (messageDataOf_ok _ Hp) as [Hm Hn].
  eexists. split; [exact Hm|]. split; [exact (fromMeOf_ok _ Hn)|].
  intros Ht. run_handler.
  rewrite He, Hi. cbn [negb]. rewrite Hm, (bodyOf_ok _ Hn), (fromMeOf_ok _ Hn), Ht.
  reflexivity.
Qed.

Lemma outgoing_message_skipped_witness :
  webhook prose_world from_me_event = (skipped "outgoing message", []).
Proof.
  destruct (outgoing_message_skipped prose_world from_me_event (str "message")
              eq_refl eq_refl) as (md & Hm & _ & H).
  injection Hm as <-. apply H. reflexivity.
Defined.

(** C5 as stated fails: here [fromMe] is defined (false) and [from_me] is
    true; the first defined of the two is false, yet the handler takes the
    message for an outgoing one. *)
Lemma fromMe_first_defined_counterexample :
  first_defined [field from_me_event "fromMe"; field from_me_event "from_me"]
    (JBool false) = JBool false /\
  fromMeOf from_me_event = Ok (JBool true) /\
  webhook prose_world from_me_event = (skipped "outgoing message", []).
Proof. vm_compute. repeat split; reflexivity. Qed.

Lemma split_head (s : jsstr) :
  exists rest, JsString.split 64 s = before_at s :: rest.
Proof.
  induction s as [|c s [rest IH]]; simpl.
  - eauto.
  - destruct (N.eqb c 64); [eauto|]. rewrite IH. eauto.
Qed.

Lemma split_at_first (s : jsstr) :
  (parts <- call_split_at (JStr s) ;; get0 parts) = Ok (JStr (before_at s)).
Proof.
  cbn [call_split_at bind res_Monad get0].
  destruct (split_head s) as [rest ->]. reflexivity.
Qed.

(* A field that is absent or a string: nothing, the empty string, or a
   string with a first character. *)
Ltac string_field v :=
  destruct v as [| | | | [|? ?] | |]; try discriminate; simpl; try reflexivity.

Lemma chatIdOf_typed (md : JsVal) :
  typed_message md = true -> chatIdOf md = Ok (JStr (chatId_spec md)).
Proof.
  unfold typed_message, chatId_spec. rewrite andb_true_iff, negb_true_iff.
  intros [Hn Ht]. rewrite (chatIdOf_ok _ Hn).
  simpl in Ht. rewrite !andb_true_iff in Ht.
  destruct Ht as (_ & _ & _ & _ & H1 & H2 & H3 & _).
  revert H1 H2 H3.
  generalize (field md "chatId"), (field md "from"), (field (field md "chat") "id").
  intros v1 v2 v3 H1 H2 H3. simpl.
  string_field v1; string_field v2; string_field v3.
Qed.

Lemma sourceNameOf_typed (md : JsVal) :
  typed_message md = true ->
  sourceNameOf md (JStr (chatId_spec md)) = Ok (JStr (sourceName_spec md)).
Proof.
  unfold typed_message, sourceName_spec. rewrite andb_true_iff, negb_true_iff.
  intros [Hn Ht]. unfold sourceNameOf.
  rewrite split_at_first, !(get_field _ _ Hn). cbn [bind res_Monad].
  rewrite !get_opt_field, !or_else_ok.
  simpl in Ht. rewrite !andb_true_iff in Ht.
  destruct Ht as (H1 & H2 & H3 & H4 & _).
  revert H1 H2 H3 H4.
  generalize (chatId_spec md).
  generalize (field (field md "_data") "notifyName"), (field md "notifyName"),
    (field md "pushName"), (field (field md "chat") "name").
  intros v1 v2 v3 v4 chatId H1 H2 H3 H4.
  assert (Hlast :
    (if truthy (JStr (before_at chatId)) then Ok (JStr (before_at chatId))
     else Ok (str "Unknown"))
    = Ok (JStr (first_nonempty [before_at chatId] (lit "Unknown")))).
  { simpl. destruct (before_at chatId); reflexivity. }
  string_field v1; string_field v2; string_field v3; string_field v4;
    exact Hlast.
Qed.

Example sourceName_unknown :
  chatIdOf (obj [("body", str "hello")]) = Ok (JStr []) /\
  sourceNameOf (obj [("body", str "hello")]) (JStr []) = Ok (str "Unknown") /\
  webhook prose_world (obj [("body", str "hello")])
  = (processed_no_action, [CallOpenAI (str "Unknown") (str "hello")]).
Proof. vm_compute. repeat split; reflexivity. Qed.

Example sourceName_local_part :
  webhook prose_world hello_event
  = (processed_no_action, [CallOpenAI (str "1234") (str "hello")]).
Proof. vm_compute. reflexivity. Qed.

(** ** Positive classifications *)

Lemma sheetDataOf_ok (w : World) (sn body c chatId : JsVal) :
  nullish c = false ->
  sheetDataOf w sn body c chatId = Ok (sheet_record w sn body c chatId).
Proof.
  intros H. unfold sheetDataOf, sheet_record.
  rewrite !(get_field _ _ H), !or_else_ok. simpl.
  destruct (truthy (field c "responsible")), (truthy (field c "urgency")),
    (truthy (field c "due")); reflexivity.
Qed.

Lemma truthy_field_not_nullish (c : JsVal) (k : string) :
  truthy (field c k) = true -> nullish c = false.
Proof. destruct c; simpl; intros H; try discriminate; reflexivity. Qed.

Lemma webhook_action_item (w : World) (payload md body chatId sn : JsVal) :
  reaches_classifier payload md body chatId sn ->
  truthy (field (classification w body sn) "isActionItem") = true ->
  webhook w payload
  = (processed_action (classification w body sn),
     [CallOpenAI sn body;
      CallSheets (sheet_record w sn body (classification w body sn) chatId)]).
Proof.
  intros R Ht. rewrite (webhook_reaches w _ _ _ _ _ R).
  pose proof (truthy_field_not_nullish _ _ Ht) as Hn.
  unfold after_classification.
  now rewrite (get_field _ _ Hn), Ht, (sheetDataOf_ok _ _ _ _ _ Hn).
Qed.

Lemma classifyWithGPT_result (w : World) (body sn c : JsVal) (tr tr' : list call) :
  classifyWithGPT w body sn tr = (Ok c, tr') -> c = classification w body sn.
Proof.
  rewrite classifyWithGPT_eq. destruct (prompt_ok body sn); congruence.
Qed.

(** *** The request body on the wire *)

Lemma wire_undefined (v : JsVal) : wire v = JUndefined -> v = JUndefined.
Proof.
  destruct v; simpl; try discriminate; auto.
  destruct (finite m e); discriminate.
Qed.

Lemma wire_truthy (v : JsVal) :
  truthy v = true -> truthy (wire v) = true \/ wire v = JNull.
Proof.
  destruct v; simpl; auto.
  destruct (finite m e); auto.
Qed.

(** An object without undefined fields is serialised field by field. *)
Lemma wire_object (fields : list (jsstr * JsVal)) :
  Forall (fun kv => snd kv <> JUndefined) fields ->
  wire (JObj fields) = JObj (map (fun kv => (fst kv, wire (snd kv))) fields).
Proof.
  induction 1 as [|[k x] rest Hx _ IH]; [reflexivity|].
  simpl in *. injection IH as IH. rewrite IH.
  destruct (wire x) eqn:E; try reflexivity.
  apply wire_undefined in E. contradiction.
Qed.

Lemma truthy_defined (v : JsVal) : truthy v = true -> v <> JUndefined.
Proof. intros H F. subst v. discriminate. Qed.

Lemma first_truthy_defined (v d : JsVal) :
  truthy d = true -> first_truthy [v] d <> JUndefined.
Proof.
  intros H. apply truthy_defined. simpl.
  destruct (truthy v) eqn:E; assumption.
Qed.

Lemma wire_sheet_record (w : World) (sn chatId c : JsVal) (s : jsstr) :
  sn <> JUndefined -> chatId <> JUndefined ->
  wire (sheet_record w sn (JStr s) c chatId)
  = obj [("timestamp", JStr (now w));
         ("source", wire sn);
         ("message", JStr s);
         ("responsible", wire (first_truthy [field c "responsible"] (str "Unknown")));
         ("urgency", wire (first_truthy [field c "urgency"] (str "Normal")));
         ("due", wire (first_truthy [field c "due"] (str "None")));
         ("status", str "Open");
         ("chatId", wire chatId)].
Proof.
  intros Hsn Hc. unfold sheet_record, obj. rewrite wire_object.
  - reflexivity.
  - cbn [map fst snd].
    repeat (apply Forall_cons; [cbn [snd]|]); try apply Forall_nil;
      auto using first_truthy_defined; discriminate.
Qed.

Lemma reaches_classifier_defined (payload md body chatId sn : JsVal) :
  reaches_classifier payload md body chatId sn ->
  sn <> JUndefined /\ chatId <> JUndefined /\ exists s, body = JStr s.
Proof.
  intros (event & fromMe & _ & _ & _ & _ & _ & _ & _ & Hc & Hn & Hl).
  split; [exact (truthy_defined _ (sourceNameOf_truthy _ _ _ Hn))|].
  split; [exact (chatIdOf_defined _ _ Hc)|].
  exact (proj2 (logLineOf_inv _ _ Hl)).
Qed.

(** C7 (amended): when the handler has reached the classifier and its answer
    [c] has a truthy [isActionItem], the sink request is made with one
    record that has status "Open", source [sourceName], message [body], the
    normalized [chatId], and the [responsible], [urgency] and [due] of [c],
    where a field that is omitted or falsy (empty string, null, false, zero)
    is replaced by "Unknown", "Normal" and "None"; the handler then answers
    [{status: "processed", isActionItem: true, classification: c}].  The
    body of the request is the JSON serialisation of the record: every field
    is there, each value as [JSON.stringify] writes it (a number too large
    for a finite double as null).  The body of the answer is serialised in
    the same way, with all three fields. *)
Theorem action_item_record
  (w : World) (payload md body chatId sn c : JsVal) :
  reaches_classifier payload md body chatId sn ->
  classifyWithGPT w body sn [] = (Ok c, [CallOpenAI sn body]) ->
  truthy (field c "isActionItem") = true ->
  webhook w payload
  = (processed_action c,
     [CallOpenAI sn body;
      CallSheets
        (obj [("timestamp", JStr (now w));
              ("source", sn);
              ("message", body);
              ("responsible", first_truthy [field c "responsible"] (str "Unknown"));
              ("urgency", first_truthy [field c "urgency"] (str "Normal"));
              ("due", first_truthy [field c "due"] (str "None"));
              ("status", str "Open");
              ("chatId", chatId)])]) /\
  wire (obj [("timestamp", JStr (now w));
             ("source", sn);
             ("message", body);
             ("responsible", first_truthy [field c "responsible"] (str "Unknown"));
             ("urgency", first_truthy [field c "urgency"] (str "Normal"));
             ("due", first_truthy [field c "due"] (str "None"));
             ("status", str "Open");
             ("chatId", chatId)])
  = obj [("timestamp", JStr (now w));
         ("source", wire sn);
         ("message", body);
         ("responsible", wire (first_truthy [field c "responsible"] (str "Unknown")));
         ("urgency", wire (first_truthy [field c "urgency"] (str "Normal")));
         ("due", wire (first_truthy [field c "due"] (str "None")));
         ("status", str "Open");
         ("chatId", wire chatId)] /\
  wire (obj [("status", str "processed");
             ("isActionItem", JBool true);
             ("classification", c)])
  = obj [("status", str "processed");
         ("isActionItem", JBool true);
         ("classification", wire c)].
Proof.
  intros R Hc Ht. apply classifyWithGPT_result in Hc. subst c.
  split; [|split].
  - exact (webhook_action_item w _ _ _ _ _ R Ht).
  - destruct (reaches_classifier_defined _ _ _ _ _ R) as (Hsn & Hid & s & ->).
    exact (wire_sheet_record w sn chatId _ s Hsn Hid).
  - unfold obj. rewrite wire_object; [reflexivity|].
    cbn [map fst snd].
    repeat (apply Forall_cons; [cbn [snd]|]); try apply Forall_nil;
      try discriminate.
    intros F. rewrite F in Ht. discriminate.
Qed.

Lemma contract_event_reaches :
  reaches_classifier contract_event (field contract_event "payload")
    (str "Please send the contract by Monday, urgent!")
    (str "999@c.us") (str "Alice").
Proof.
  exists (str "message"), (JBool false). repeat split; reflexivity.
Qed.

Lemma action_item_record_witness :
  webhook sink_ok_world contract_event
  = (processed_action contract_classification,
     [CallOpenAI (str "Alice") (str "Please send the contract by Monday, urgent!");
      CallSheets
        (obj [("timestamp", JStr (now sink_ok_world));
              ("source", str "Alice");
              ("message", str "Please send the contract by Monday, urgent!");
              ("responsible", str "Alice");
              ("urgency", str "Urgent");
              ("due", str "Monday");
              ("status", str "Open");
              ("chatId", str "999@c.us")])]).
Proof.
  exact (proj1 (action_item_record sink_ok_world contract_event _ _ _ _
                  contract_classification contract_event_reaches
                  eq_refl eq_refl)).
Defined.

(** C7 as stated fails: this answer carries [responsible] (the empty string)
    and [due] (null), so neither is omitted, yet the record sent to the sink
    has "Unknown" and "None" in their place. *)
Lemma record_defaults_counterexample :
  classifyWithGPT sparse_world (str "hello") (str "1234") []
  = (Ok sparse_classification, [CallOpenAI (str "1234") (str "hello")]) /\
  default_if_omitted (field sparse_classification "responsible") (str "Unknown")
  = JStr [] /\
  default_if_omitted (field sparse_classification "due") (str "None") = JNull /\
  webhook sparse_world hello_event
  = (processed_action sparse_classification,
     [CallOpenAI (str "1234") (str "hello");
      CallSheets
        (obj [("timestamp", JStr (now sparse_world));
              ("source", str "1234");
              ("message", str "hello");
              ("responsible", str "Unknown");
              ("urgency", str "Low");
              ("due", str "None");
              ("status", str "Open");
              ("chatId", str "1234@g.us")])]).
Proof. vm_compute. repeat split; reflexivity. Qed.

(** ** The event type *)

(** C8 (amended): the event-type tag is [event.event], or "message" when that
    field is absent or falsy (the empty string, null, false, zero); when the
    tag is a string that does not contain "message", as "session.status"
    (unlike "message.ack"), the handler answers
    [{status: "skipped", reason: "non-message event"}] and makes no outbound
    call. *)
Theorem non_message_event_skipped (w : World) (payload : JsVal) :
  nullish payload = false ->
  eventOf payload = Ok (first_truthy [field payload "event"] (str "message")) /\
  (forall tag,
      first_truthy [field payload "event"] (str "message") = JStr tag ->
      JsString.includes (lit "message") tag = false ->
      webhook w payload = (skipped "non-message event", [])) /\
  JsString.includes (lit "message") (lit "message.ack") = true /\
  JsString.includes (lit "message") (lit "session.status") = false.
Proof.
  intros Hn. pose proof (eventOf_ok _ Hn) as He.
  split; [exact He|]. split; [|split; reflexivity].
  intros tag Ht Hi. run_handler. rewrite He, Ht.
  cbn [call_includes]. rewrite Hi. reflexivity.
Qed.

Lemma non_message_event_skipped_witness :
  webhook prose_world status_event = (skipped "non-message event", []).
Proof.
  exact (proj1 (proj2 (non_message_event_skipped prose_world status_event eq_refl))
           (lit "session.status") eq_refl eq_refl).
Defined.

(** C8 as stated fails: here [event] is present and is the empty string,
    which does not contain "message"; the handler nevertheless takes the
    event for a message and classifies it. *)
Lemma empty_tag_counterexample :
  field empty_tag_event "event" = JStr [] /\
  JsString.includes (lit "message") [] = false /\
  eventOf empty_tag_event = Ok (str "message") /\
  webhook prose_world empty_tag_event
  = (processed_no_action, [CallOpenAI (str "Unknown") (str "hello")]).
Proof. vm_compute. repeat split; reflexivity. Qed.

(** ** The sink *)

(** C9 (amended): [writeToGoogleSheets] makes one request and returns true
    when it is answered with a status in 200..299 and false on any other
    status or a failed transport, without throwing.  The handler discards
    this boolean: for a positively classified message it answers
    [{status: "processed", isActionItem: true, classification}] after one
    sink request, whatever the outcome of that request. *)
Theorem sink_result_discarded (w : World) :
  (forall data tr, exists ok,
      writeToGoogleSheets w data tr = (Ok ok, tr ++ [CallSheets data]) /\
      (ok = true <->
       exists status body,
         sheets w data = HttpResponse status body /\ (200 <= status < 300)%Z)) /\
  (forall payload sn body c,
      In (CallOpenAI sn body) (snd (webhook w payload)) ->
      classifyWithGPT w body sn [] = (Ok c, [CallOpenAI sn body]) ->
      truthy (field c "isActionItem") = true ->
      exists record,
        webhook w payload
        = (processed_action c, [CallOpenAI sn body; CallSheets record])).
Proof.
  split.
  - intros data tr. exists (is_2xx (sheets w data)).
    split; [apply writeToGoogleSheets_run|].
    unfold is_2xx, accepted.
    destruct (sheets w data) as [status body|].
    + destruct (200 <=? status)%Z eqn:A, (status <? 300)%Z eqn:B; simpl;
        rewrite ?Z.leb_le, ?Z.leb_gt, ?Z.ltb_lt, ?Z.ltb_ge in *.
      * split; [|reflexivity]. intros _. exists status, body. split; [reflexivity|lia].
      * split; [discriminate|]. intros (s & b & E & H). injection E as <- <-. lia.
      * split; [discriminate|]. intros (s & b & E & H). injection E as <- <-. lia.
      * split; [discriminate|]. intros (s & b & E & H). injection E as <- <-. lia.
    + split; [discriminate|]. intros (s & b & E & _). discriminate.
  - intros payload sn body c Hin Hc Ht.
    destruct (webhook_called _ _ _ _ Hin) as (md & chatId & R).
    apply classifyWithGPT_result in Hc. subst c.
    eexists. exact (webhook_action_item w _ _ _ _ _ R Ht).
Qed.

Lemma sink_result_discarded_witness :
  fst (webhook sink_down_world contract_event)
  = processed_action contract_classification.
Proof.
  destruct (proj2 (sink_result_discarded sink_down_world)
              contract_event (str "Alice")
              (str "Please send the contract by Monday, urgent!")
              contract_classification)
    as [record H].
  - vm_compute. auto.
  - reflexivity.
  - reflexivity.
  - rewrite H. reflexivity.
Defined.

(** C9 as stated fails: the same event is answered in the same way by a
    world whose sink accepts the record and by one whose sink answers 503,
    although [writeToGoogleSheets] returns true in the first and false in the
    second; the boolean is not part of the response. *)
Lemma sink_result_counterexample :
  writeToGoogleSheets sink_ok_world contract_record []
  = (Ok true, [CallSheets contract_record]) /\
  writeToGoogleSheets sink_down_world contract_record []
  = (Ok false, [CallSheets contract_record]) /\
  webhook sink_ok_world contract_event
  = (processed_action contract_classification,
     [CallOpenAI (str "Alice") (str "Please send the contract by Monday, urgent!");
      CallSheets contract_record]) /\
  webhook sink_down_world contract_event
  = (processed_action contract_classification,
     [CallOpenAI (str "Alice") (str "Please send the contract by Monday, urgent!");
      CallSheets contract_record]).
Proof. vm_compute. repeat split; reflexivity. Qed.


(** * Further properties of the handler *)

(** ** Only TypeErrors escape *)

Lemma get_type_error (v : JsVal) (k : string) : type_errors_only (get v k).
Proof. intros e. destruct v; simpl; congruence. Qed.

Lemma get_opt_type_error (v : JsVal) (k : string) :
  type_errors_only (get_opt v k).
Proof. intros e. destruct v; simpl; congruence. Qed.

Lemma get0_type_error (v : JsVal) : type_errors_only (get0 v).
Proof. intros e. destruct v; simpl; congruence. Qed.

Lemma call_includes_type_error (v : JsVal) (needle : jsstr) :
  type_errors_only (call_includes v needle).
Proof. intros e. destruct v; simpl; congruence. Qed.

Lemma call_trim_type_error (v : JsVal) : type_errors_only (call_trim v).
Proof. intros e. destruct v; simpl; congruence. Qed.

Lemma call_split_at_type_error (v : JsVal) :
  type_errors_only (call_split_at v).
Proof. intros e. destruct v; simpl; congruence. Qed.

Lemma ok_type_error {A} (a : A) : type_errors_only (Ok a).
Proof. intros e. congruence. Qed.

Lemma bind_type_error {A B} (c : res A) (k : A -> res B) :
  type_errors_only c -> (forall a, type_errors_only (k a)) ->
  type_errors_only (x <- c ;; k x).
Proof.
  intros Hc Hk e. destruct c as [a|e']; simpl.
  - apply Hk.
  - intros E. apply Hc. congruence.
Qed.

Lemma or_else_type_error (a b : res JsVal) :
  type_errors_only a -> type_errors_only b -> type_errors_only (a <||> b).
Proof.
  intros Ha Hb. apply bind_type_error; [exact Ha|].
  intros x. destruct (truthy x); [apply ok_type_error|exact Hb].
Qed.

Create HintDb type_errors.

#[local] Hint Resolve get_type_error get_opt_type_error get0_type_error
  call_includes_type_error call_trim_type_error call_split_at_type_error
  ok_type_error bind_type_error or_else_type_error : type_errors.

Lemma eventOf_type_error (p : JsVal) : type_errors_only (eventOf p).
Proof. unfold eventOf. auto with type_errors. Qed.

Lemma messageDataOf_type_error (p : JsVal) : type_errors_only (messageDataOf p).
Proof. unfold messageDataOf. auto with type_errors. Qed.

Lemma bodyOf_type_error (md : JsVal) : type_errors_only (bodyOf md).
Proof. unfold bodyOf. auto 10 with type_errors. Qed.

Lemma fromMeOf_type_error (md : JsVal) : type_errors_only (fromMeOf md).
Proof. unfold fromMeOf. auto 10 with type_errors. Qed.

Lemma chatIdOf_type_error (md : JsVal) : type_errors_only (chatIdOf md).
Proof. unfold chatIdOf. auto 10 with type_errors. Qed.

Lemma sourceNameOf_type_error (md chatId : JsVal) :
  type_errors_only (sourceNameOf md chatId).
Proof. unfold sourceNameOf. auto 15 with type_errors. Qed.

Lemma logLineOf_type_error (sn body : JsVal) :
  type_errors_only (logLineOf sn body).
Proof.
  unfold logLineOf, ToString. intros e.
  destruct (stringifiable sn); [|simpl; congruence].
  destruct body; simpl; congruence.
Qed.

Lemma isSystemMessage_type_error (body : JsVal) :
  type_errors_only (isSystemMessage body).
Proof.
  unfold isSystemMessage. destruct (negb (truthy body)); [apply ok_type_error|].
  apply bind_type_error; [apply call_trim_type_error|].
  intros t. destruct (JsString.eqb t []); apply ok_type_error.
Qed.

(** ** The outcomes of a request *)

(* The handler answered [r] before any outbound call was made. *)
Ltac answered_early :=
  run_handler;
  repeat match goal with H : _ = _ |- _ => rewrite H end;
  reflexivity.

Ltac threw_early lemma :=
  right; left;
  match goal with
  | H : _ = Throw ?e |- _ =>
      assert (e = TypeError) by (eapply lemma; exact H); subst e
  end;
  answered_early.

Lemma webhook_before_classifier (w : World) (payload : JsVal) :
  (exists reason,
      In reason skip_reasons /\ webhook w payload = (skipped reason, [])) \/
  webhook w payload = (server_error w TypeError, []) \/
  exists md body chatId sn, reaches_classifier payload md body chatId sn.
Proof.
  destruct (eventOf payload) as [event|e] eqn:He;
    [|threw_early eventOf_type_error].
  destruct (call_includes event (lit "message")) as [[|]|e] eqn:Hi;
    [ | left; exists "non-message event"; split; [simpl; auto|answered_early]
      | threw_early call_includes_type_error ].
  destruct (messageDataOf payload) as [md|e] eqn:Hm;
    [|threw_early messageDataOf_type_error].
  destruct (bodyOf md) as [body|e] eqn:Hb; [|threw_early bodyOf_type_error].
  destruct (fromMeOf md) as [fromMe|e] eqn:Hf;
    [|threw_early fromMeOf_type_error].
  destruct (truthy fromMe) eqn:Hft;
    [left; exists "outgoing message"; split; [simpl; auto|answered_early]|].
  destruct (isSystemMessage body) as [[|]|e] eqn:Hs;
    [ left; exists "system or empty message"; split; [simpl; auto|answered_early]
    | | threw_early isSystemMessage_type_error ].
  destruct (chatIdOf md) as [chatId|e] eqn:Hc;
    [|threw_early chatIdOf_type_error].
  destruct (sourceNameOf md chatId) as [sn|e] eqn:Hn;
    [|threw_early sourceNameOf_type_error].
  destruct (logLineOf sn body) as [[]|e] eqn:Hl;
    [|threw_early logLineOf_type_error].
  right; right.
  exists md, body, chatId, sn, event, fromMe. repeat split; assumption.
Qed.

Lemma get_ok_not_nullish (v a : JsVal) (k : string) :
  get v k = Ok a -> nullish v = false.
Proof. destruct v; simpl; intros H; try discriminate; reflexivity. Qed.

Lemma after_classification_cases (w : World) (sn body chatId c : JsVal) :
  after_classification w sn body chatId c
  = (server_error w TypeError, [CallOpenAI sn body]) /\ nullish c = true \/
  after_classification w sn body chatId c
  = (processed_no_action, [CallOpenAI sn body]) /\
  nullish c = false /\ truthy (field c "isActionItem") = false \/
  after_classification w sn body chatId c
  = (processed_action c,
     [CallOpenAI sn body; CallSheets (sheet_record w sn body c chatId)]) /\
  truthy (field c "isActionItem") = true.
Proof.
  unfold after_classification.
  destruct (nullish c) eqn:Hn.
  - left. destruct c; try discriminate; auto.
  - right. rewrite (get_field _ _ Hn).
    destruct (truthy (field c "isActionItem")) eqn:Ht.
    + right. now rewrite (sheetDataOf_ok _ _ _ _ _ Hn).
    + left. auto.
Qed.

(* The outcomes of a request, with the classification that decides
   between the last three. *)
Lemma webhook_outcomes_detailed (w : World) (payload : JsVal) :
  (exists reason,
      In reason skip_reasons /\ webhook w payload = (skipped reason, [])) \/
  webhook w payload = (server_error w TypeError, []) \/
  exists md body chatId sn,
    reaches_classifier payload md body chatId sn /\
    (webhook w payload = (server_error w TypeError, [CallOpenAI sn body]) /\
     nullish (classification w body sn) = true \/
     webhook w payload = (processed_no_action, [CallOpenAI sn body]) /\
     nullish (classification w body sn) = false /\
     truthy (field (classification w body sn) "isActionItem") = false \/
     webhook w payload
     = (processed_action (classification w body sn),
        [CallOpenAI sn body;
         CallSheets (sheet_record w sn body (classification w body sn) chatId)]) /\
     truthy (field (classification w body sn) "isActionItem") = true).
Proof.
  destruct (webhook_before_classifier w payload)
    as [H | [H | (md & body & chatId & sn & R)]]; [auto|auto|].
  right; right. exists md, body, chatId, sn. split; [exact R|].
  rewrite (webhook_reaches w _ _ _ _ _ R).
  apply after_classification_cases.
Qed.

(** X1: Every request ends in one of five ways: it is skipped for one of three
    reasons, or fails with a TypeError, both before any outbound call; or,
    after one call of the classifier, it fails with a TypeError, is reported
    as not actionable, or is reported as an action item after one call of
    the sink with the record of that classification. *)
Theorem webhook_outcomes (w : World) (payload : JsVal) :
  (exists reason,
      In reason skip_reasons /\ webhook w payload = (skipped reason, [])) \/
  webhook w payload = (server_error w TypeError, []) \/
  exists sn body,
    webhook w payload = (server_error w TypeError, [CallOpenAI sn body]) \/
    webhook w payload = (processed_no_action, [CallOpenAI sn body]) \/
    exists c chatId,
      webhook w payload
      = (processed_action c,
         [CallOpenAI sn body; CallSheets (sheet_record w sn body c chatId)]).
Proof.
  destruct (webhook_outcomes_detailed w payload)
    as [H | [H | (md & body & chatId & sn & _ & H)]]; [auto|auto|].
  right; right. exists sn, body.
  destruct H as [[E _] | [[E _] | [E _]]]; eauto.
Qed.

Lemma status_skipped (reason : string) :
  status_field (skipped reason) = str "skipped".
Proof. reflexivity. Qed.

Lemma status_processed_action (c : JsVal) :
  status_field (processed_action c) = str "processed".
Proof. reflexivity. Qed.

Lemma processed_action_not_skipped (c : JsVal) (reason : string) :
  skipped reason <> processed_action c.
Proof.
  intros E. apply (f_equal status_field) in E.
  rewrite status_skipped, status_processed_action in E. discriminate.
Qed.

Lemma processed_action_not_error (w : World) (c : JsVal) (e : exn) :
  server_error w e <> processed_action c.
Proof. intros E. discriminate. Qed.

Lemma processed_action_not_plain (c : JsVal) :
  processed_no_action <> processed_action c.
Proof. intros E. discriminate. Qed.

(** X2: The response reports an action item exactly when the sink was called:
    [{status: "processed", isActionItem: true, ...}] is never sent without a
    preceding sink request, and no sink request is followed by any other
    response. *)
Theorem sink_called_iff_action_reported (w : World) (payload : JsVal) :
  (exists record, In (CallSheets record) (snd (webhook w payload))) <->
  (exists c, fst (webhook w payload) = processed_action c).
Proof.
  destruct (webhook_outcomes_detailed w payload)
    as [(reason & _ & E)
       | [E | (md & body & chatId & sn & _ & [[E _] | [[E _] | [E _]]])]];
    rewrite E; simpl; split.
  - intros [r []].
  - intros [c H]. now apply processed_action_not_skipped in H.
  - intros [r []].
  - intros [c H]. now apply processed_action_not_error in H.
  - intros [r [H|[]]]. discriminate.
  - intros [c H]. now apply processed_action_not_error in H.
  - intros [r [H|[]]]. discriminate.
  - intros [c H]. now apply processed_action_not_plain in H.
  - intros _. eexists. reflexivity.
  - intros _. eexists. right. left. reflexivity.
Qed.

(** ** What the classifier and the sink are called with *)

Lemma isSystemMessage_false_inv (v : JsVal) :
  isSystemMessage v = Ok false ->
  exists s,
    v = JStr s /\ trim s <> [] /\
    forall pattern,
      In pattern SYSTEM_MESSAGE_PATTERNS -> RegExp.test pattern s = false.
Proof.
  unfold isSystemMessage. destruct (negb (truthy v)); [discriminate|].
  destruct v; try discriminate. cbn [call_trim bind res_Monad].
  destruct (JsString.eqb (trim s) []) eqn:E; [discriminate|].
  destruct (existsb _ SYSTEM_MESSAGE_PATTERNS) eqn:X; [discriminate|].
  intros _. exists s. split; [reflexivity|]. split.
  - intros F. rewrite F in E. discriminate.
  - intros pattern Hin.
    destruct (RegExp.test pattern s) eqn:T; [|reflexivity].
    rewrite <- X. symmetry. apply existsb_exists. exists pattern. auto.
Qed.

Lemma classifier_call_wellformed_aux (w : World) (payload sn body : JsVal) :
  In (CallOpenAI sn body) (snd (webhook w payload)) ->
  truthy sn = true /\ exists s, body = JStr s /\ trim s <> [].
Proof.
  intros Hin.
  destruct (webhook_called _ _ _ _ Hin)
    as (md & chatId & event & fromMe & _ & _ & _ & _ & _ & _ & Hs & _ & Hn & _).
  split; [exact (sourceNameOf_truthy _ _ _ Hn)|].
  destruct (isSystemMessage_false_inv _ Hs) as (s & -> & Ht & _). eauto.
Qed.



Lemma first_truthy_default (v d : JsVal) :
  truthy d = true -> truthy (first_truthy [v] d) = true.
Proof. intros H. simpl. destruct (truthy v) eqn:E; assumption. Qed.

Lemma field_wire_sheet_record (w : World) (sn chatId c : JsVal) (s : jsstr) :
  sn <> JUndefined -> chatId <> JUndefined ->
  let r := wire (sheet_record w sn (JStr s) c chatId) in
  field r "status" = str "Open" /\
  field r "timestamp" = JStr (now w) /\
  field r "message" = JStr s /\
  field r "source" = wire sn /\
  field r "responsible"
  = wire (first_truthy [field c "responsible"] (str "Unknown")) /\
  field r "urgency" = wire (first_truthy [field c "urgency"] (str "Normal")) /\
  field r "due" = wire (first_truthy [field c "due"] (str "None")).
Proof.
  intros Hsn Hc r. subst r. rewrite (wire_sheet_record w sn chatId c s Hsn Hc).
  repeat split; reflexivity.
Qed.

(** X4: Every sink request follows the one call of the classifier and is
    made with a record whose source, [responsible], [urgency] and [due] are
    truthy.  In the request body, the serialisation of that record, the
    status is "Open", the timestamp is the clock's, the message is a string
    with something other than whitespace in it, and each of source,
    [responsible], [urgency] and [due] is present and is truthy, or null
    where the record holds a number too large for a finite double. *)
Theorem sink_record_wellformed (w : World) (payload record : JsVal) :
  In (CallSheets record) (snd (webhook w payload)) ->
  snd (webhook w payload)
  = [CallOpenAI (field record "source") (field record "message");
     CallSheets record] /\
  field (wire record) "status" = str "Open" /\
  field (wire record) "timestamp" = JStr (now w) /\
  (exists s, field (wire record) "message" = JStr s /\ trim s <> []) /\
  forall k,
    In k ["source"; "responsible"; "urgency"; "due"] ->
    truthy (field record k) = true /\
    field (wire record) k = wire (field record k) /\
    (truthy (field (wire record) k) = true \/ field (wire record) k = JNull).
Proof.
  intros Hin.
  destruct (webhook_outcomes_detailed w payload)
    as [(reason & _ & E)
       | [E | (md & body & chatId & sn & R & [[E _] | [[E _] | [E _]]])]];
    rewrite E in Hin; simpl in Hin;
    try (destruct Hin as [Hin|Hin]; [discriminate|]);
    try (destruct Hin as [Hin|Hin]); try contradiction.
  injection Hin as <-. set (c := classification w body sn) in *.
  assert (Hc : In (CallOpenAI sn body) (snd (webhook w payload)))
    by (rewrite E; now left).
  destruct (classifier_call_wellformed_aux w payload sn body Hc)
    as (Hsn & s & -> & Hs).
  destruct (reaches_classifier_defined _ _ _ _ _ R) as (Dsn & Did & _).
  destruct (field_wire_sheet_record w sn chatId c s Dsn Did)
    as (W1 & W2 & W3 & W4 & W5 & W6 & W7).
  split; [now rewrite E|]. split; [exact W1|]. split; [exact W2|].
  split; [exists s; auto|].
  intros k [<-|[<-|[<-|[<-|[]]]]].
  - split; [exact Hsn|]. split; [exact W4|]. rewrite W4.
    now apply wire_truthy.
  - assert (H : truthy (first_truthy [field c "responsible"] (str "Unknown"))
                = true) by now apply first_truthy_default.
    split; [exact H|]. split; [exact W5|]. rewrite W5. now apply wire_truthy.
  - assert (H : truthy (first_truthy [field c "urgency"] (str "Normal"))
                = true) by now apply first_truthy_default.
    split; [exact H|]. split; [exact W6|]. rewrite W6. now apply wire_truthy.
  - assert (H : truthy (first_truthy [field c "due"] (str "None"))
                = true) by now apply first_truthy_default.
    split; [exact H|]. split; [exact W7|]. rewrite W7. now apply wire_truthy.
Qed.

Lemma sink_record_wellformed_witness :
  field (wire contract_record) "status" = str "Open".
Proof.
  destruct (sink_record_wellformed sink_down_world contract_event contract_record)
    as (_ & H & _).
  - vm_compute. auto.
  - exact H.
Defined.

(** ** Requests that stop before the classifier *)

Lemma incoming_message_body (payload md : JsVal) :
  incoming_message payload md ->
  nullish md = false /\ bodyOf md = Ok (body_of md).
Proof.
  intros (event & fromMe & He & _ & Hm & _).
  pose proof (eventOf_not_nullish _ _ He) as Hp.
  destruct (messageDataOf_ok _ Hp) as [Hm' Hn].
  assert (md = first_truthy [field payload "payload"] payload) as ->
    by congruence.
  split; [exact Hn|exact (bodyOf_ok _ Hn)].
Qed.

Lemma isSystemMessage_blank_string (s : jsstr) :
  forallb is_space s = true -> isSystemMessage (JStr s) = Ok true.
Proof.
  intros H. unfold isSystemMessage.
  destruct (negb (truthy (JStr s))); [reflexivity|].
  cbn [call_trim bind res_Monad]. now rewrite (trim_blank _ H).
Qed.

(** X5: An incoming message without text, or whose text ([body], else [text],
    else [caption]) is whitespace only, is answered with
    [{status: "skipped", reason: "system or empty message"}] and no
    outbound call. *)
Theorem blank_message_skipped (w : World) (payload md : JsVal) (s : jsstr) :
  incoming_message payload md ->
  body_of md = JStr s ->
  forallb is_space s = true ->
  webhook w payload = (skipped "system or empty message", []).
Proof.
  intros Hin Hb Hs.
  destruct (incoming_message_body _ _ Hin) as [Hn Hb'].
  destruct Hin as (event & fromMe & He & Hi & Hm & Hf & Hft).
  run_handler. rewrite He, Hi. cbn [negb]. rewrite Hm, Hb', Hf, Hft, Hb.
  now rewrite (isSystemMessage_blank_string _ Hs).
Qed.

Lemma blank_event_incoming :
  incoming_message blank_event (obj [("text", str "   ")]).
Proof. exists (str "message"), (JBool false). repeat split; reflexivity. Qed.

Lemma blank_message_skipped_witness :
  webhook prose_world blank_event = (skipped "system or empty message", []).
Proof.
  exact (blank_message_skipped prose_world blank_event _ (lit "   ")
           blank_event_incoming eq_refl eq_refl).
Defined.

(** X6: An incoming message whose text field holds a truthy value that is not a
    string (a number, [true], an array, an object) is answered with 500: the
    filter calls [trim] on it.  No outbound call is made. *)
Theorem non_string_body_error (w : World) (payload md : JsVal) :
  incoming_message payload md ->
  truthy (body_of md) = true ->
  is_string (body_of md) = false ->
  webhook w payload = (server_error w TypeError, []).
Proof.
  intros Hin Ht Hs.
  destruct (incoming_message_body _ _ Hin) as [Hn Hb].
  destruct Hin as (event & fromMe & He & Hi & Hm & Hf & Hft).
  run_handler. rewrite He, Hi. cbn [negb]. rewrite Hm, Hb, Hf, Hft.
  unfold isSystemMessage. rewrite Ht. cbn [negb].
  destruct (body_of md); try discriminate; reflexivity.
Qed.

Lemma numeric_body_event_incoming :
  incoming_message numeric_body_event numeric_body_event.
Proof. exists (str "message"), (JBool false). repeat split; reflexivity. Qed.

Lemma non_string_body_error_witness :
  webhook prose_world numeric_body_event
  = (server_error prose_world TypeError, []).
Proof.
  exact (non_string_body_error prose_world numeric_body_event _
           numeric_body_event_incoming eq_refl eq_refl).
Defined.

(** ** The sender *)

Lemma sourceNameOf_chain (md chatId : JsVal) :
  nullish md = false ->
  sourceNameOf md chatId
  = if truthy (first_truthy (names_of md) JUndefined)
    then Ok (first_truthy (names_of md) JUndefined)
    else (parts <- call_split_at chatId ;; get0 parts) <||> Ok (str "Unknown").
Proof.
  intros Hn. unfold sourceNameOf, names_of.
  rewrite !(get_field _ _ Hn). cbn [bind res_Monad].
  rewrite !get_opt_field, !or_else_ok.
  generalize (field (field md "_data") "notifyName"), (field md "notifyName"),
    (field md "pushName"), (field (field md "chat") "name").
  intros v1 v2 v3 v4. cbn [first_truthy].
  destruct (truthy v1) eqn:E1; rewrite ?E1; [reflexivity|].
  destruct (truthy v2) eqn:E2; rewrite ?E2; [reflexivity|].
  destruct (truthy v3) eqn:E3; rewrite ?E3; [reflexivity|].
  destruct (truthy v4) eqn:E4; rewrite ?E4; reflexivity.
Qed.

Lemma webhook_sender (w : World) (payload md : JsVal) :
  incoming_message payload md ->
  isSystemMessage (body_of md) = Ok false ->
  nullish md = false /\
  chatIdOf md = Ok (chatId_of md) /\
  forall sn,
    sourceNameOf md (chatId_of md) = sn ->
    match sn with
    | Ok name =>
        if stringifiable name
        then reaches_classifier payload md (body_of md) (chatId_of md) name
        else webhook w payload = (server_error w TypeError, [])
    | Throw e => webhook w payload = (server_error w e, [])
    end.
Proof.
  intros Hin Hs.
  destruct (incoming_message_body _ _ Hin) as [Hn Hb].
  split; [exact Hn|]. split; [exact (chatIdOf_ok _ Hn)|].
  destruct Hin as (event & fromMe & He & Hi & Hm & Hf & Hft).
  destruct (isSystemMessage_false_inv _ Hs) as (s & Hstr & _).
  intros [name|e] Hsn.
  - destruct (stringifiable name) eqn:Hname.
    + exists event, fromMe. rewrite (chatIdOf_ok _ Hn).
      repeat split; try assumption.
      rewrite Hstr. now apply logLineOf_ok.
    + run_handler. rewrite He, Hi. cbn [negb].
      rewrite Hm, Hb, Hf, Hft, Hs, (chatIdOf_ok _ Hn).
      fold (chatId_of md). rewrite Hsn.
      unfold logLineOf, ToString. now rewrite Hname.
  - run_handler. rewrite He, Hi. cbn [negb].
    rewrite Hm, Hb, Hf, Hft, Hs, (chatIdOf_ok _ Hn).
    fold (chatId_of md). now rewrite Hsn.
Qed.

(** X7: When no name field is truthy and the chat id is a truthy value that is
    not a string (a numeric [from], say), the handler answers 500 without
    any outbound call: it calls [split] on the chat id. *)
Theorem non_string_chatId_error (w : World) (payload md : JsVal) :
  incoming_message payload md ->
  isSystemMessage (body_of md) = Ok false ->
  truthy (first_truthy (names_of md) JUndefined) = false ->
  is_string (chatId_of md) = false ->
  webhook w payload = (server_error w TypeError, []).
Proof.
  intros Hin Hs Hnames Hc.
  destruct (webhook_sender w _ _ Hin Hs) as (Hn & _ & H).
  apply (H (Throw TypeError)).
  rewrite (sourceNameOf_chain _ _ Hn), Hnames.
  destruct (chatId_of md); try discriminate; reflexivity.
Qed.

Lemma numeric_sender_event_incoming :
  incoming_message numeric_sender_event numeric_sender_event.
Proof. exists (str "message"), (JBool false). repeat split; reflexivity. Qed.

Lemma non_string_chatId_error_witness :
  webhook prose_world numeric_sender_event
  = (server_error prose_world TypeError, []).
Proof.
  exact (non_string_chatId_error prose_world numeric_sender_event _
           numeric_sender_event_incoming eq_refl eq_refl eq_refl).
Defined.

(** X8: When some name field is truthy, the source name is the first such
    field and the chat id is never inspected, whatever its type.  If that
    name can be converted to a string, the handler gets to the classifier
    and calls it first, with that name and the message text; if it cannot
    (an object with a field named [toString], or an array that holds one),
    the log line throws and the handler answers 500 without any outbound
    call. *)
Theorem named_sender_any_chatId (w : World) (payload md : JsVal) :
  incoming_message payload md ->
  isSystemMessage (body_of md) = Ok false ->
  truthy (first_truthy (names_of md) JUndefined) = true ->
  sourceNameOf md (chatId_of md) = Ok (first_truthy (names_of md) JUndefined) /\
  if stringifiable (first_truthy (names_of md) JUndefined)
  then
    reaches_classifier payload md (body_of md) (chatId_of md)
      (first_truthy (names_of md) JUndefined) /\
    exists rest,
      snd (webhook w payload)
      = CallOpenAI (first_truthy (names_of md) JUndefined) (body_of md) :: rest
  else webhook w payload = (server_error w TypeError, []).
Proof.
  intros Hin Hs Hnames.
  destruct (webhook_sender w _ _ Hin Hs) as (Hn & _ & H).
  assert (E : sourceNameOf md (chatId_of md)
              = Ok (first_truthy (names_of md) JUndefined))
    by now rewrite (sourceNameOf_chain _ _ Hn), Hnames.
  split; [exact E|].
  specialize (H _ E). cbn beta iota in H.
  destruct (stringifiable (first_truthy (names_of md) JUndefined));
    [|exact H].
  split; [exact H|].
  rewrite (webhook_reaches w _ _ _ _ _ H).
  destruct (after_classification_cases w (first_truthy (names_of md) JUndefined)
              (body_of md) (chatId_of md)
              (classification w (body_of md) (first_truthy (names_of md) JUndefined)))
    as [[-> _] | [[-> _] | [-> _]]]; simpl; eauto.
Qed.

Lemma named_numeric_sender_event_incoming :
  incoming_message named_numeric_sender_event named_numeric_sender_event.
Proof. exists (str "message"), (JBool false). repeat split; reflexivity. Qed.

Lemma named_sender_any_chatId_witness :
  exists rest,
    snd (webhook prose_world named_numeric_sender_event)
    = CallOpenAI (str "Bob") (str "hello") :: rest.
Proof.
  exact (proj2 (proj2 (named_sender_any_chatId prose_world
                         named_numeric_sender_event _
                         named_numeric_sender_event_incoming eq_refl eq_refl))).
Defined.

(** ** Nested payloads *)

(** X9: When the request carries a truthy [payload], every message field is
    read from it: two requests with the same [event] and the same nested
    [payload] are handled alike, whatever else stands beside them. *)
Theorem nested_payload_shadows (w : World) (p1 p2 : JsVal) :
  nullish p1 = false -> nullish p2 = false ->
  field p1 "event" = field p2 "event" ->
  field p1 "payload" = field p2 "payload" ->
  truthy (field p1 "payload") = true ->
  webhook w p1 = webhook w p2.
Proof.
  intros H1 H2 He Hp Ht.
  destruct (messageDataOf_ok _ H1) as [M1 _].
  destruct (messageDataOf_ok _ H2) as [M2 _].
  cbn [first_truthy] in M1, M2. rewrite <- Hp in M2. rewrite Ht in M1, M2.
  pose proof (eventOf_ok _ H1) as E1. pose proof (eventOf_ok _ H2) as E2.
  rewrite <- He in E2.
  unfold webhook, webhook_try, lift. cbn [bind ret M_Monad].
  now rewrite E1, E2, M1, M2.
Qed.

Lemma nested_payload_shadows_witness :
  webhook prose_world wrapped_event_with_extras
  = webhook prose_world wrapped_event.
Proof.
  apply nested_payload_shadows; reflexivity.
Defined.

(** ** Classifications *)

(** X10: When the classifier's answer is not null and its [isActionItem] is
    missing or falsy (false, 0, the empty string, null), the handler answers
    [{status: "processed", isActionItem: false}] and does not call the
    sink. *)
Theorem falsy_isActionItem_not_written (w : World) (payload sn body c : JsVal) :
  In (CallOpenAI sn body) (snd (webhook w payload)) ->
  classifyWithGPT w body sn [] = (Ok c, [CallOpenAI sn body]) ->
  nullish c = false ->
  truthy (field c "isActionItem") = false ->
  webhook w payload = (processed_no_action, [CallOpenAI sn body]).
Proof.
  intros Hin Hc Hn Ht.
  destruct (webhook_called _ _ _ _ Hin) as (md & chatId & R).
  apply classifyWithGPT_result in Hc. subst c.
  rewrite (webhook_reaches w _ _ _ _ _ R). unfold after_classification.
  now rewrite (get_field _ _ Hn), Ht.
Qed.

Lemma falsy_isActionItem_not_written_witness :
  webhook declined_world hello_event
  = (processed_no_action, [CallOpenAI (str "1234") (str "hello")]).
Proof.
  apply (falsy_isActionItem_not_written declined_world hello_event
           (str "1234") (str "hello")
           (obj [("isActionItem", JBool false); ("summary", str "greeting")])).
  - vm_compute. auto.
  - reflexivity.
  - reflexivity.
  - reflexivity.
Defined.

(** X11: When the completion endpoint answers 2xx but
    [choices[0].message.content] is missing, null or anything but a string,
    the classification is [{isActionItem: false}].  (The endpoint is asked
    once the prompt is built; the function throws before any request when
    that is not possible, which a call from the handler never meets.) *)
Theorem malformed_completion_not_actionable
  (w : World) (message sourceName data : JsVal) :
  accepted (openai w sourceName message) = Some data ->
  (forall s, rawContentOf data <> Ok (JStr s)) ->
  forall tr,
    classifyWithGPT w message sourceName tr
    = if prompt_ok message sourceName
      then (Ok NOT_ACTION_ITEM, tr ++ [CallOpenAI sourceName message])
      else (Throw TypeError, tr).
Proof.
  intros Ha Hc tr. rewrite classifyWithGPT_eq.
  destruct (prompt_ok message sourceName); [|reflexivity].
  f_equal. f_equal.
  unfold classification, contentOf. rewrite Ha.
  destruct (rawContentOf data) as [v|e]; [|reflexivity].
  destruct v; try reflexivity. now destruct (Hc s).
Qed.

Lemma malformed_completion_not_actionable_witness :
  classifyWithGPT no_choices_world (str "hello") (str "1234") []
  = (Ok NOT_ACTION_ITEM, [CallOpenAI (str "1234") (str "hello")]).
Proof.
  apply (malformed_completion_not_actionable no_choices_world
           (str "hello") (str "1234") (obj [("choices", JArr [])]) eq_refl).
  intros s. discriminate.
Defined.

(** ** The text handed to the parser *)

Lemma has_In (c : N) (s : jsstr) : has c s = true <-> In c s.
Proof.
  unfold has. rewrite existsb_exists. split.
  - intros (x & Hin & E). apply N.eqb_eq in E. now subst.
  - intros H. exists c. split; [assumption|apply N.eqb_refl].
Qed.

Lemma split_at_first_occurrence (c : N) (s : jsstr) :
  has c s = true ->
  exists pre rest, s = pre ++ c :: rest /\ has c pre = false.
Proof.
  induction s as [|x s IH]; [discriminate|].
  unfold has. simpl. destruct (N.eqb_spec c x) as [<-|Hx]; simpl.
  - intros _. now exists [], s.
  - intros H. destruct (IH H) as (pre & rest & -> & Hpre).
    exists (x :: pre), rest. split; [reflexivity|].
    unfold has. simpl. destruct (N.eqb_spec c x); [contradiction|exact Hpre].
Qed.

Lemma split_at_last_occurrence (c : N) (s : jsstr) :
  has c s = true ->
  exists mid post, s = mid ++ c :: post /\ has c post = false.
Proof.
  induction s as [|x s IH]; [discriminate|].
  destruct (has c s) eqn:Hs.
  - intros _. destruct (IH eq_refl) as (mid & post & -> & Hpost).
    now exists (x :: mid), post.
  - unfold has in *. simpl. rewrite Hs, orb_false_r.
    intros E. apply N.eqb_eq in E. subst x. now exists [], s.
Qed.

(** X12: The match of [/\{[\s\S]*\}/] in full: when the text has a closing brace
    somewhere after its first opening brace, the match runs from that first
    opening brace to the last closing brace; otherwise there is no match. *)
Theorem json_match_spec (content : jsstr) :
  match RegExp.exec JSON_OBJECT_RE content with
  | Some m =>
      exists pre mid post,
        content = pre ++ 123%N :: mid ++ 125%N :: post /\
        has 123 pre = false /\ has 125 post = false /\
        m = 123%N :: mid ++ [125%N]
  | None =>
      has 123 content = false \/
      exists pre rest,
        content = pre ++ 123%N :: rest /\
        has 123 pre = false /\ has 125 rest = false
  end.
Proof.
  destruct (has 123 content) eqn:Ho.
  - destruct (split_at_first_occurrence _ _ Ho) as (pre & rest & -> & Hpre).
    destruct (has 125 rest) eqn:Hc.
    + destruct (split_at_last_occurrence _ _ Hc) as (mid & post & -> & Hpost).
      rewrite (exec_outer_braces pre mid post
                 (has_false _ _ Hpre) (has_false _ _ Hpost)).
      now exists pre, mid, post.
    + assert (E : RegExp.exec JSON_OBJECT_RE (pre ++ 123%N :: rest) = None).
      { unfold RegExp.exec, JSON_OBJECT_RE.
        cbn [RegExp.startAnchor RegExp.ignoreCase RegExp.endAnchor RegExp.items].
        rewrite (scan_from_first_open _ pre _ (has_false _ _ Hpre)).
        rewrite scan_eq, match_here_one, match_here_star.
        rewrite (star_without_close rest (has_false _ _ Hc)).
        cbn [RegExp.atom_ok]. rewrite N.eqb_refl. cbn [option_map].
        exact (exec_without_close rest (has_false _ _ Hc)). }
      rewrite E. right. now exists pre, rest.
  - rewrite (exec_without_open content (has_false _ _ Ho)). now left.
Qed.

(** ** What the patterns match, read backwards *)

Section MatchInversion.

Import RegExp.

Lemma star_loop_inv (ok : N -> bool) (k : jsstr -> option jsstr)
  (s m : jsstr) :
  star_loop ok k s = Some m ->
  exists a b m',
    s = a ++ b /\ forallb ok a = true /\ k b = Some m' /\ m = a ++ m'.
Proof.
  revert m. induction s as [|c s IH]; intros m; simpl.
  - intros H. now exists [], [], m.
  - destruct (ok c) eqn:Hc; [|intros H; now exists [], (c :: s), m].
    destruct (star_loop ok k s) as [m1|] eqn:E.
    + intros H. injection H as <-.
      destruct (IH m1 eq_refl) as (a & b & m' & -> & Ha & Hk & ->).
      exists (c :: a), b, m'. simpl. now rewrite Hc, Ha.
    + intros H. now exists [], (c :: s), m.
Qed.

Lemma chars_inv (ic ea : bool) (l : jsstr) (tail : list item) (s m : jsstr) :
  match_here ic ea (map (fun c => One (Chr c)) l ++ tail) s = Some m ->
  exists l' s' m',
    s = l' ++ s' /\
    Forall2 (fun x c => atom_ok ic (Chr x) c = true) l l' /\
    match_here ic ea tail s' = Some m'.
Proof.
  revert s m. induction l as [|x l IH]; intros s m; cbn [map app].
  - intros H. now exists [], s, m.
  - destruct s as [|c s]; [discriminate|]. rewrite match_here_one.
    destruct (atom_ok ic (Chr x) c) eqn:Hc; [|discriminate].
    destruct (match_here ic ea _ s) as [m1|] eqn:E; [|discriminate].
    intros _. destruct (IH s m1 E) as (l' & s' & m' & -> & Hl & Ht).
    exists (c :: l'), s', m'. repeat split; auto.
Qed.

Lemma folded_chars (l l' : jsstr) :
  Forall2 (fun x c => atom_ok true (Chr x) c = true) l l' -> same_fold l l'.
Proof.
  unfold same_fold. induction 1 as [|x c l l' H _ IH]; [reflexivity|].
  simpl in *. apply N.eqb_eq in H. now rewrite H, IH.
Qed.

Lemma end_inv (ic : bool) (s m : jsstr) :
  match_here ic true [] s = Some m -> s = [].
Proof. destruct s; simpl; [reflexivity|discriminate]. Qed.

Lemma class_star_end_inv (ic : bool) (a : atom) (s m : jsstr) :
  match_here ic true [Star a] s = Some m -> forallb (atom_ok ic a) s = true.
Proof.
  rewrite match_here_star. intros H.
  destruct (star_loop_inv _ _ _ _ H) as (x & b & m' & -> & Hx & Hk & _).
  apply end_inv in Hk. subst b. now rewrite app_nil_r.
Qed.

Lemma fold_case_mark (c : N) : fold_case LRM = fold_case c -> c = LRM.
Proof.
  unfold fold_case, LRM. simpl.
  destruct (97 <=? c)%N eqn:A, (c <=? 122)%N eqn:B; simpl;
    rewrite ?N.leb_le, ?N.leb_gt in *; lia.
Qed.

Lemma notice_inv (ea : bool) (kw : string) (tail : list item) (s m : jsstr) :
  match_here true ea ([One (Chr LRM); Star Dot] ++ chars kw ++ tail) s = Some m ->
  exists who kw' rest m',
    s = LRM :: who ++ kw' ++ rest /\
    one_line who = true /\
    same_fold (lit kw) kw' /\
    match_here true ea tail rest = Some m'.
Proof.
  cbn [app]. destruct s as [|c s]; [discriminate|]. rewrite match_here_one.
  destruct (atom_ok true (Chr LRM) c) eqn:Hc; [|discriminate].
  unfold atom_ok in Hc. apply N.eqb_eq in Hc. apply fold_case_mark in Hc.
  subst c.
  destruct (match_here true ea _ s) as [m1|] eqn:E; [|discriminate].
  intros _. rewrite match_here_star in E.
  destruct (star_loop_inv _ _ _ _ E) as (who & b & m2 & -> & Hw & Hk & _).
  destruct (chars_inv _ _ _ _ _ _ Hk) as (kw' & rest & m' & -> & Hkw & Ht).
  exists who, kw', rest, m'. repeat split; auto using folded_chars.
Qed.

Lemma same_fold_notice (who kw kw' rest : jsstr) :
  same_fold kw kw' ->
  same_fold (LRM :: who ++ kw ++ rest) (LRM :: who ++ kw' ++ rest).
Proof.
  unfold same_fold. intros H. simpl. now rewrite !map_app, H.
Qed.

Lemma same_fold_prefix (kw kw' rest : jsstr) :
  same_fold kw kw' -> same_fold (kw ++ rest) (kw' ++ rest).
Proof. unfold same_fold. intros H. now rewrite !map_app, H. Qed.

(** A pattern [^\u200e.*kw.*$] *)
Lemma line_notice_inv (kw : string) (s m : jsstr) :
  In kw ["changed the group"; "added"; "removed"] ->
  match_here true true
    ([One (Chr LRM); Star Dot] ++ chars kw ++ [Star Dot]) s = Some m ->
  exists s0, system_notice s0 /\ same_fold s0 s.
Proof.
  intros Hkw H.
  destruct (notice_inv _ _ _ _ _ H) as (who & kw' & rest & m' & -> & Hw & Hf & Ht).
  apply class_star_end_inv in Ht.
  exists (LRM :: who ++ lit kw ++ rest). split.
  - now apply group_change_notice.
  - now apply same_fold_notice.
Qed.

(** A pattern [^\u200e.*kw$] *)
Lemma closing_notice_inv (kw : string) (s m : jsstr) :
  In kw ["added you"; "left"] ->
  match_here true true ([One (Chr LRM); Star Dot] ++ chars kw) s = Some m ->
  exists s0, system_notice s0 /\ same_fold s0 s.
Proof.
  intros Hkw H. rewrite <- (app_nil_r (chars kw)) in H.
  destruct (notice_inv _ _ _ _ _ H) as (who & kw' & rest & m' & -> & Hw & Hf & Ht).
  apply end_inv in Ht. subst rest.
  exists (LRM :: who ++ lit kw). split.
  - now apply group_change_closing.
  - rewrite <- (app_nil_r (lit kw)). now apply same_fold_notice.
Qed.

(** The pattern [^\u200e.*created group] *)
Lemma created_notice_inv (s m : jsstr) :
  match_here true false
    ([One (Chr LRM); Star Dot] ++ chars "created group") s = Some m ->
  exists s0, system_notice s0 /\ same_fold s0 s.
Proof.
  intros H. rewrite <- (app_nil_r (chars "created group")) in H.
  destruct (notice_inv _ _ _ _ _ H) as (who & kw' & rest & m' & -> & Hw & Hf & _).
  exists (LRM :: who ++ lit "created group" ++ rest). split.
  - now apply group_created_notice.
  - now apply same_fold_notice.
Qed.

(** A pattern [^kw] *)
Lemma placeholder_inv (kw : string) (s m : jsstr) :
  In kw ["Messages and calls are end-to-end encrypted";
         "Waiting for this message";
         "This message was deleted";
         "You deleted this message"] ->
  match_here true false (chars kw) s = Some m ->
  exists s0, system_notice s0 /\ same_fold s0 s.
Proof.
  intros Hkw H. rewrite <- (app_nil_r (chars kw)) in H.
  destruct (chars_inv _ _ _ _ _ _ H) as (kw' & rest & m' & -> & Hf & _).
  exists (lit kw ++ rest). split.
  - now apply placeholder_notice.
  - apply same_fold_prefix. now apply folded_chars.
Qed.

(** The pattern [^null$] *)
Lemma null_inv (s m : jsstr) :
  match_here true true (chars "null") s = Some m ->
  exists s0, system_notice s0 /\ same_fold s0 s.
Proof.
  intros H. rewrite <- (app_nil_r (chars "null")) in H.
  destruct (chars_inv _ _ _ _ _ _ H) as (kw' & rest & m' & -> & Hf & Ht).
  apply end_inv in Ht. subst rest. rewrite app_nil_r.
  exists (lit "null"). split; [apply null_literal|now apply folded_chars].
Qed.

End MatchInversion.

Lemma pattern_matched_inv (pattern : RegExp.t) (s : jsstr) :
  In pattern SYSTEM_MESSAGE_PATTERNS ->
  RegExp.test pattern s = true ->
  forallb is_space s = true \/ exists s0, system_notice s0 /\ same_fold s0 s.
Proof.
  unfold SYSTEM_MESSAGE_PATTERNS, RegExp.test, RegExp.exec.
  intros Hin.
  repeat (destruct Hin as [<-|Hin];
          [cbn [RegExp.startAnchor RegExp.endAnchor RegExp.ignoreCase RegExp.items];
           destruct (RegExp.match_here _ _ _ s) as [m|] eqn:E; [|discriminate];
           intros _|]);
    try contradiction.
  - right. apply (line_notice_inv "changed the group" s m); simpl; auto.
  - right. apply (closing_notice_inv "added you" s m); simpl; auto.
  - right. apply (line_notice_inv "added" s m); simpl; auto.
  - right. apply (line_notice_inv "removed" s m); simpl; auto.
  - right. apply (closing_notice_inv "left" s m); simpl; auto.
  - right. exact (created_notice_inv s m E).
  - right. apply (placeholder_inv "Messages and calls are end-to-end encrypted" s m);
      simpl; auto.
  - right. apply (placeholder_inv "Waiting for this message" s m); simpl; auto.
  - right. apply (placeholder_inv "This message was deleted" s m); simpl; auto.
  - right. apply (placeholder_inv "You deleted this message" s m); simpl; auto.
  - right. exact (null_inv s m E).
  - left. exact (class_star_end_inv false RegExp.Space s m E).
Qed.

Lemma trimStart_nil_blank (s : jsstr) :
  trimStart s = [] -> forallb is_space s = true.
Proof.
  induction s as [|c s IH]; simpl; [reflexivity|].
  destruct (is_space c); [exact IH|discriminate].
Qed.

Lemma trimStart_head (s t : jsstr) (c : N) :
  trimStart s = c :: t -> is_space c = false.
Proof.
  induction s as [|x s IH]; simpl; [discriminate|].
  destruct (is_space x) eqn:E; [exact IH|].
  intros H. injection H as <- _. exact E.
Qed.

Lemma trim_nil_blank (s : jsstr) : trim s = [] -> forallb is_space s = true.
Proof.
  unfold trim, trimEnd. intros H.
  apply (f_equal (@rev N)) in H. rewrite rev_involutive in H. simpl in H.
  apply trimStart_nil_blank in H.
  destruct (trimStart s) as [|c t] eqn:E; [now apply trimStart_nil_blank|].
  apply trimStart_head in E.
  assert (Hc : is_space c = true).
  { rewrite forallb_forall in H. apply H. apply -> in_rev. now left. }
  congruence.
Qed.

(** X13: The filter in full, for a string: it answers true exactly for a body
    that is empty or whitespace only, and for a body that is, up to the case
    of ASCII letters, a group-membership notice behind a left-to-right mark,
    the encryption banner, a waiting or deleted placeholder, or "null". *)
Theorem isSystemMessage_exact (s : jsstr) :
  isSystemMessage (JStr s) = Ok true <->
  forallb is_space s = true \/ exists s0, system_notice s0 /\ same_fold s0 s.
Proof.
  split.
  - unfold isSystemMessage.
    destruct (negb (truthy (JStr s))) eqn:Ht.
    + intros _. left. destruct s; [reflexivity|discriminate].
    + cbn [call_trim bind res_Monad].
      destruct (JsString.eqb (trim s) []) eqn:E.
      * intros _. left. apply trim_nil_blank. now apply eqb_eq.
      * destruct (existsb _ SYSTEM_MESSAGE_PATTERNS) eqn:X; [|discriminate].
        intros _. apply existsb_exists in X.
        destruct X as (pattern & Hin & Hp).
        exact (pattern_matched_inv pattern s Hin Hp).
  - intros [Hb | (s0 & Hs & Hf)].
    + exact (isSystemMessage_blank_string s Hb).
    + destruct (system_notice_matched s0 Hs) as (pattern & Hin & Ht).
      destruct (patterns_anchored_and_case_blind _ Hin) as [Ha Hb].
      apply isSystemMessage_some with pattern; [assumption|].
      exact (test_fold pattern s0 s Ha Hb Hf Ht).
Qed.

(** ** The sender, when no name is given *)

Lemma before_at_no_at (s : jsstr) : has 64 (before_at s) = false.
Proof.
  induction s as [|c s IH]; [reflexivity|]. cbn [before_at].
  destruct (N.eqb_spec c 64) as [E|E]; [reflexivity|].
  unfold has in *. cbn [existsb]. rewrite IH, orb_false_r.
  apply N.eqb_neq. congruence.
Qed.

(** X14: When no name field is truthy and the chat id is a string, the source
    name is the chat id up to its first '@', or "Unknown" when that part is
    empty; it never contains an '@'. *)
Theorem chatId_fallback (w : World) (payload md : JsVal) (s : jsstr) :
  incoming_message payload md ->
  isSystemMessage (body_of md) = Ok false ->
  truthy (first_truthy (names_of md) JUndefined) = false ->
  chatId_of md = JStr s ->
  reaches_classifier payload md (body_of md) (JStr s)
    (JStr (first_nonempty [before_at s] (lit "Unknown"))) /\
  has 64 (first_nonempty [before_at s] (lit "Unknown")) = false.
Proof.
  intros Hin Hs Hnames Hc.
  destruct (webhook_sender w _ _ Hin Hs) as (Hn & _ & H).
  split.
  - rewrite <- Hc at 1.
    apply (H (Ok (JStr (first_nonempty [before_at s] (lit "Unknown"))))).
    rewrite (sourceNameOf_chain _ _ Hn), Hnames, Hc, split_at_first, or_else_ok.
    simpl. destruct (before_at s); reflexivity.
  - pose proof (before_at_no_at s) as Hb. simpl.
    destruct (before_at s); [reflexivity|exact Hb].
Qed.

Lemma hello_event_incoming : incoming_message hello_event hello_event.
Proof. exists (str "message"), (JBool false). repeat split; reflexivity. Qed.

Lemma chatId_fallback_witness :
  reaches_classifier hello_event hello_event (str "hello")
    (str "1234@g.us") (str "1234").
Proof.
  exact (proj1 (chatId_fallback prose_world hello_event hello_event
                  (lit "1234@g.us") hello_event_incoming
                  eq_refl eq_refl eq_refl)).
Defined.

(** ** Tags that contain "message" *)

(* The response at hand is not the one named in the goal. *)
Ltac other_response :=
  cbn [fst]; intros F; vm_compute in F; discriminate F.

Lemma event_check_passed (w : World) (payload event : JsVal) :
  eventOf payload = Ok event ->
  call_includes event (lit "message") = Ok true ->
  fst (webhook w payload) <> skipped "non-message event".
Proof.
  intros He Hi.
  run_handler. rewrite He, Hi. cbn [negb].
  destruct (messageDataOf payload) as [md|]; [|other_response].
  destruct (bodyOf md) as [body|]; [|other_response].
  destruct (fromMeOf md) as [fromMe|]; [|other_response].
  destruct (truthy fromMe); [other_response|].
  destruct (isSystemMessage body) as [[|]|]; try other_response.
  destruct (chatIdOf md) as [chatId|]; [|other_response].
  destruct (sourceNameOf md chatId) as [sn|]; [|other_response].
  destruct (logLineOf sn body) as [[]|]; [|other_response].
  rewrite classifyWithGPT_eq.
  destruct (prompt_ok body sn); [|other_response].
  destruct (get _ "isActionItem") as [a|]; [|other_response].
  destruct (truthy a); [|other_response].
  destruct (sheetDataOf _ _ _ _ _); [|other_response].
  rewrite writeToGoogleSheets_run. other_response.
Qed.

(** X15: An event whose tag is a string that contains "message" anywhere, as
    "message.ack" does, is never answered with the reason "non-message
    event": it goes on to the checks of an incoming message. *)
Theorem message_tag_not_skipped (w : World) (payload : JsVal) (tag : jsstr) :
  nullish payload = false ->
  first_truthy [field payload "event"] (str "message") = JStr tag ->
  JsString.includes (lit "message") tag = true ->
  fst (webhook w payload) <> skipped "non-message event".
Proof.
  intros Hn Ht Hi.
  apply (event_check_passed w payload (JStr tag)).
  - rewrite (eventOf_ok _ Hn). now rewrite Ht.
  - cbn [call_includes]. now rewrite Hi.
Qed.

Lemma message_tag_not_skipped_witness :
  fst (webhook prose_world ack_event) <> skipped "non-message event".
Proof.
  apply (message_tag_not_skipped prose_world ack_event (lit "message.ack"));
    reflexivity.
Defined.

(** ** Tags that are not strings *)

(** C10 (amended): when the [event] field is truthy and neither a string nor
    an array (a number other than zero, [true], an object), the call of
    [includes] throws and the handler answers 500
    [{status: "error", message}] without any outbound call.  When the
    [event] field of the request object is falsy (false, zero, null, the
    empty string) it is replaced by "message" and the event is never skipped
    as a non-message event.  An array is searched with its own [includes],
    for an element that is the string "message": the event is skipped as a
    non-message event when there is none, and is never so skipped when there
    is one. *)
Theorem non_string_event_error (w : World) (payload : JsVal) :
  (truthy (field payload "event") = true ->
   is_string_or_array (field payload "event") = false ->
   webhook w payload = (server_error w TypeError, [])) /\
  (nullish payload = false ->
   truthy (field payload "event") = false ->
   eventOf payload = Ok (str "message") /\
   fst (webhook w payload) <> skipped "non-message event") /\
  (forall l,
      field payload "event" = JArr l ->
      call_includes (JArr l) (lit "message")
      = Ok (existsb (fun x => is_str x (lit "message")) l) /\
      (existsb (fun x => is_str x (lit "message")) l = false ->
       webhook w payload = (skipped "non-message event", [])) /\
      (existsb (fun x => is_str x (lit "message")) l = true ->
       fst (webhook w payload) <> skipped "non-message event")).
Proof.
  split; [|split].
  - intros Ht Hs.
    pose proof (eventOf_ok _ (truthy_field_not_nullish _ _ Ht)) as He.
    run_handler. rewrite He. simpl. rewrite Ht.
    destruct (field payload "event"); try discriminate; reflexivity.
  - intros Hn Hf. pose proof (eventOf_ok _ Hn) as He.
    simpl in He. rewrite Hf in He. split; [exact He|].
    now apply (event_check_passed w payload (str "message")).
  - intros l Hl.
    assert (Hn : nullish payload = false)
      by (apply (truthy_field_not_nullish payload "event"); now rewrite Hl).
    pose proof (eventOf_ok _ Hn) as He.
    rewrite Hl in He. simpl in He.
    split; [reflexivity|]. split.
    + intros Hx. run_handler. rewrite He. cbn [call_includes].
      now rewrite Hx.
    + intros Hx. apply (event_check_passed w payload (JArr l)); [exact He|].
      cbn [call_includes]. now rewrite Hx.
Qed.

Lemma non_string_event_error_witness :
  webhook prose_world numeric_tag_event = (server_error prose_world TypeError, []).
Proof.
  exact (proj1 (non_string_event_error prose_world numeric_tag_event)
           eq_refl eq_refl).
Defined.

(** C10 as stated fails: [event: false] is present and not a string, and so
    is [event: ["message"]]; neither request is answered with 500, both are
    processed as messages. *)
Lemma non_string_event_counterexample :
  webhook prose_world false_tag_event
  = (processed_no_action, [CallOpenAI (str "Unknown") (str "hello")]) /\
  webhook prose_world array_tag_event
  = (processed_no_action, [CallOpenAI (str "Unknown") (str "hello")]).
Proof. vm_compute. split; reflexivity. Qed.

(** ** The source name *)

(** C6 (amended): [sourceName] is the first truthy value of the nested
    [_data.notifyName], [notifyName], [pushName] and the nested [chat.name].
    When none of them is truthy and [chatId] is a string, [sourceName] is
    the part of [chatId] before its first '@', or "Unknown" when that part
    is empty.  When none of them is truthy and [chatId] is not a string, no
    source name is computed: [split] cannot be called and a TypeError is
    thrown.  In the handler, for a message event that is neither outgoing
    nor a system or empty message, [chatId] is the normalized chat id (the
    first truthy of [chatId], [from] and [chat.id], else the empty string);
    a source name taken from the chat id or "Unknown" is the name the
    classifier is called with, and where the chat id is not a string the
    request is answered 500 without any outbound call.  In particular,
    [chatId] "1234@g.us" without name fields gives "1234", and no chat id
    and no name fields give "Unknown". *)
Theorem sourceName_chain (w : World) :
  (forall md chatId,
      nullish md = false ->
      sourceNameOf md chatId
      = if truthy (first_truthy (names_of md) JUndefined)
        then Ok (first_truthy (names_of md) JUndefined)
        else match chatId with
             | JStr s => Ok (JStr (first_nonempty [before_at s] (lit "Unknown")))
             | _ => Throw TypeError
             end) /\
  (forall payload md,
      incoming_message payload md ->
      isSystemMessage (body_of md) = Ok false ->
      chatIdOf md = Ok (chatId_of md) /\
      (truthy (first_truthy (names_of md) JUndefined) = true ->
       sourceNameOf md (chatId_of md)
       = Ok (first_truthy (names_of md) JUndefined)) /\
      (truthy (first_truthy (names_of md) JUndefined) = false ->
       forall s,
         chatId_of md = JStr s ->
         sourceNameOf md (chatId_of md)
         = Ok (JStr (first_nonempty [before_at s] (lit "Unknown"))) /\
         exists rest,
           snd (webhook w payload)
           = CallOpenAI (JStr (first_nonempty [before_at s] (lit "Unknown")))
               (body_of md) :: rest) /\
      (truthy (first_truthy (names_of md) JUndefined) = false ->
       is_string (chatId_of md) = false ->
       sourceNameOf md (chatId_of md) = Throw TypeError /\
       webhook w payload = (server_error w TypeError, []))) /\
  (chatIdOf hello_event = Ok (str "1234@g.us") /\
   sourceNameOf hello_event (str "1234@g.us") = Ok (str "1234")) /\
  (chatIdOf (obj [("body", str "hello")]) = Ok (JStr []) /\
   sourceNameOf (obj [("body", str "hello")]) (JStr []) = Ok (str "Unknown")).
Proof.
  assert (F : forall md chatId,
             nullish md = false ->
             sourceNameOf md chatId
             = if truthy (first_truthy (names_of md) JUndefined)
               then Ok (first_truthy (names_of md) JUndefined)
               else match chatId with
                    | JStr s =>
                        Ok (JStr (first_nonempty [before_at s] (lit "Unknown")))
                    | _ => Throw TypeError
                    end).
  { intros md chatId Hn. rewrite (sourceNameOf_chain _ _ Hn).
    destruct (truthy (first_truthy (names_of md) JUndefined)); [reflexivity|].
    destruct chatId; try reflexivity.
    rewrite split_at_first, or_else_ok. simpl.
    destruct (before_at s); reflexivity. }
  split; [exact F|]. split; [|split; split; reflexivity].
  intros payload md Hin Hs.
  destruct (webhook_sender w _ _ Hin Hs) as (Hn & Hc & H).
  split; [exact Hc|]. split; [|split].
  - intros Hnames. now rewrite (F _ _ Hn), Hnames.
  - intros Hnames s Hid.
    assert (E : sourceNameOf md (chatId_of md)
                = Ok (JStr (first_nonempty [before_at s] (lit "Unknown"))))
      by now rewrite (F _ _ Hn), Hnames, Hid.
    split; [exact E|].
    specialize (H _ E). cbn beta iota in H. cbn [stringifiable] in H.
    rewrite (webhook_reaches w _ _ _ _ _ H).
    destruct (after_classification_cases w
                (JStr (first_nonempty [before_at s] (lit "Unknown")))
                (body_of md) (chatId_of md)
                (classification w (body_of md)
                   (JStr (first_nonempty [before_at s] (lit "Unknown")))))
      as [[-> _] | [[-> _] | [-> _]]]; simpl; eauto.
  - intros Hnames Hid.
    assert (E : sourceNameOf md (chatId_of md) = Throw TypeError).
    { rewrite (F _ _ Hn), Hnames.
      destruct (chatId_of md); try discriminate; reflexivity. }
    split; [exact E|]. exact (H _ E).
Qed.

Lemma sourceName_chain_witness :
  sourceNameOf hello_event (chatId_of hello_event) = Ok (str "1234").
Proof.
  exact (proj1 (proj1 (proj2 (proj2
           (proj1 (proj2 (sourceName_chain prose_world))
              hello_event hello_event hello_event_incoming eq_refl)))
           eq_refl (lit "1234@g.us") eq_refl)).
Defined.

(** C6 as stated fails: this message has no name field and its chat id, the
    first of [chatId], [from] and [chat.id] that is set, is a number.  The
    chain of the claim would end in a source name taken from the chat id or
    in "Unknown"; the handler computes none and answers 500. *)
Lemma numeric_chatId_counterexample :
  names_of numeric_sender_event
  = [JUndefined; JUndefined; JUndefined; JUndefined] /\
  chatIdOf numeric_sender_event = Ok (JNum 4917012345 0) /\
  sourceNameOf numeric_sender_event (JNum 4917012345 0) = Throw TypeError /\
  webhook prose_world numeric_sender_event
  = (server_error prose_world TypeError, []).
Proof. vm_compute. repeat split; reflexivity. Qed.
